(** * Murmur backend: social graph, feeds and notification fan-out

    A shallow embedding of the model layer (UserService, LikeService,
    FollowService, NotificationService, MurmurService) and of the follow,
    unfollow, timeline, public-feed, liked-murmurs, create, delete and like
    route handlers, over an explicit relational store.  Every table is the list of its rows in insertion
    order; a Prisma call is a function of the store; an [async] method is a
    computation in the [Async] monad below, which threads the store and may
    reject with an [Error]. *)

From Stdlib Require Import ZArith Lia DecimalString.
From stdpp Require Import base option list sorting strings gmap.

(** ** JavaScript values and objects *)

Inductive JsVal : Type :=
| JsNull
| JsBool (b : bool)
| JsNum (n : Z)
| JsStr (s : string)
| JsDate (t : Z).

(** A plain JS object: a finite map from property names to values. *)
Abbreviation JsObject := (gmap string JsVal).

Definition js_opt_str (o : option string) : JsVal :=
  match o with Some s => JsStr s | None => JsNull end.

Definition js_opt_date (o : option Z) : JsVal :=
  match o with Some t => JsDate t | None => JsNull end.

(** Truthiness of a string ([!s] is true exactly for the empty string) and
    of an optional string parameter ([undefined] is falsy). *)
Definition truthy (s : string) : bool := negb (String.eqb s "").

Definition truthy_opt (o : option string) : bool :=
  match o with Some s => truthy s | None => false end.

(** [obj.field] read as a number; every object built by [UserService]
    carries its three counters as numbers. *)
Definition num_field (o : JsObject) (k : string) : Z :=
  match o !! k with Some (JsNum n) => n | _ => 0%Z end.

(** ** Rows of the five tables *)

Module User.
Record t : Type := mk {
  id : string;
  username : string;
  email : string;
  displayName : string;
  password : string;
  avatar : option string;
  bio : option string;
  followersCount : Z;
  followingCount : Z;
  murmursCount : Z;
  isActive : bool;
  lastLogin : option Z;
  createdAt : Z;
  updatedAt : Z }.

(** The object Prisma hands back for a row: all fourteen scalar columns. *)
Definition to_object (u : t) : JsObject :=
  list_to_map
    [ ("id", JsStr (id u)); ("username", JsStr (username u));
      ("email", JsStr (email u)); ("displayName", JsStr (displayName u));
      ("password", JsStr (password u)); ("avatar", js_opt_str (avatar u));
      ("bio", js_opt_str (bio u));
      ("followersCount", JsNum (followersCount u));
      ("followingCount", JsNum (followingCount u));
      ("murmursCount", JsNum (murmursCount u));
      ("isActive", JsBool (isActive u));
      ("lastLogin", js_opt_date (lastLogin u));
      ("createdAt", JsDate (createdAt u));
      ("updatedAt", JsDate (updatedAt u)) ].
End User.

Module Murmur.
Record t : Type := mk {
  id : string;
  content : string;
  userId : string;
  replyToId : option string;
  likesCount : Z;
  repliesCount : Z;
  retweetsCount : Z;
  isDeleted : bool;
  createdAt : Z;
  updatedAt : Z }.
End Murmur.

Module Like.
Record t : Type := mk {
  id : string;
  userId : string;
  murmurId : string;
  createdAt : Z }.
End Like.

Module Follow.
Record t : Type := mk {
  id : string;
  followerId : string;
  followingId : string;
  createdAt : Z }.
End Follow.

Inductive NotificationType : Type := like | follow | reply.

Definition NotificationType_eqb (a b : NotificationType) : bool :=
  match a, b with
  | like, like | follow, follow | reply, reply => true
  | _, _ => false
  end.

Module Notification.
Record t : Type := mk {
  id : string;
  type : NotificationType;
  userId : string;
  actorId : string;
  murmurId : option string;
  isRead : bool;
  createdAt : Z }.
End Notification.

(** ** The relational store

    [now] is the wall clock ([CURRENT_TIMESTAMP], [Date.now()]) and
    [next_cuid] counts the identifiers handed out so far by the [cuid()]
    column default. *)
Record Db : Type := mkDb {
  users : list User.t;
  murmurs : list Murmur.t;
  follows : list Follow.t;
  likes : list Like.t;
  notifications : list Notification.t;
  now : Z;
  next_cuid : nat }.

Definition set_users (f : list User.t → list User.t) (db : Db) : Db :=
  mkDb (f (users db)) (murmurs db) (follows db) (likes db) (notifications db)
       (now db) (next_cuid db).

Definition set_murmurs (f : list Murmur.t → list Murmur.t) (db : Db) : Db :=
  mkDb (users db) (f (murmurs db)) (follows db) (likes db) (notifications db)
       (now db) (next_cuid db).

Definition set_follows (f : list Follow.t → list Follow.t) (db : Db) : Db :=
  mkDb (users db) (murmurs db) (f (follows db)) (likes db) (notifications db)
       (now db) (next_cuid db).

Definition set_likes (f : list Like.t → list Like.t) (db : Db) : Db :=
  mkDb (users db) (murmurs db) (follows db) (f (likes db)) (notifications db)
       (now db) (next_cuid db).

Definition set_notifications
    (f : list Notification.t → list Notification.t) (db : Db) : Db :=
  mkDb (users db) (murmurs db) (follows db) (likes db) (f (notifications db))
       (now db) (next_cuid db).

Definition bump_cuid (db : Db) : Db :=
  mkDb (users db) (murmurs db) (follows db) (likes db) (notifications db)
       (now db) (S (next_cuid db)).

(** ** Asynchronous computations over the store

    A rejected promise keeps the writes made before the rejection: nothing
    in the code opens a transaction. *)
Inductive Error : Type :=
| SelfFollowError          (* new Error('Users cannot follow themselves') *)
| UniqueConstraintError    (* Prisma P2002 *)
| ForeignKeyError          (* Prisma P2003 *)
| RecordNotFoundError.     (* Prisma P2025 *)

Definition Async (A : Type) : Type := Db → (Error + A) * Db.

Global Instance Async_ret : MRet Async := λ A x db, (inr x, db).

Global Instance Async_bind : MBind Async := λ A B f m db,
  match m db with
  | (inr x, db') => f x db'
  | (inl e, db') => (inl e, db')
  end.

Definition throw {A} (e : Error) : Async A := λ db, (inl e, db).

(** [try { body } catch (error) { handler }] *)
Definition try_catch {A} (body : Async A) (handler : Error → Async A)
  : Async A := λ db,
  match body db with
  | (inr x, db') => (inr x, db')
  | (inl e, db') => handler e db'
  end.

(** A read-only query. *)
Definition reads {A} (f : Db → A) : Async A := λ db, (inr (f db), db).

(** [Promise.all([p, q])]: both calls have been started, so both run to
    completion; the combined promise rejects with the first rejection. *)
Definition promise_all2 {A B} (p : Async A) (q : Async B) : Async (A * B) :=
  λ db,
  let '(ra, db1) := p db in
  let '(rb, db2) := q db1 in
  match ra, rb with
  | inr a, inr b => (inr (a, b), db2)
  | inl e, _ => (inl e, db2)
  | _, inl e => (inl e, db2)
  end.

(** ** Prisma query building blocks *)

Module Prisma.
(** [findFirst] / [findUnique]: the first row that satisfies [where]. *)
Definition findFirst {A} (where_ : A → bool) (rows : list A) : option A :=
  List.find where_ rows.

(** [count({ where })] *)
Definition count {A} (where_ : A → bool) (rows : list A) : nat :=
  length (List.filter where_ rows).

(** [deleteMany] and, for a unique [where], the row removed by [delete]. *)
Definition remove {A} (where_ : A → bool) (rows : list A) : list A :=
  List.filter (λ r, negb (where_ r)) rows.

(** [update({ where, data })] applied to the addressed row. *)
Definition modify {A} (where_ : A → bool) (data : A → A) (rows : list A)
  : list A :=
  map (λ r, if where_ r then data r else r) rows.

(** [orderBy: { key: 'desc' }] *)
Definition desc {A} (key : A → Z) : relation A := λ a b, (key b ≤ key a)%Z.

Global Instance desc_dec {A} (key : A → Z) a b : Decision (desc key a b) :=
  decide (key b ≤ key a)%Z.

(** [findMany({ where, orderBy, take, skip })] *)
Definition findMany {A} (where_ : A → bool) (orderBy : A → Z)
    (take_ skip : nat) (rows : list A) : list A :=
  take take_ (drop skip (merge_sort (desc orderBy) (List.filter where_ rows))).
End Prisma.

(** ** models/User.ts *)

Module UserService.
Record IUserCreate : Type := mkCreate {
  c_username : string;
  c_email : string;
  c_displayName : string;
  c_password : string;
  c_avatar : option string;
  c_bio : option string }.

Record IUserUpdate : Type := mkUpdate {
  u_username : option string;
  u_email : option string;
  u_displayName : option string;
  u_avatar : option string;
  u_bio : option string }.

(** The argument of [updateCounts]: each counter is optional. *)
Record Counts : Type := mkCounts {
  n_followersCount : option Z;
  n_followingCount : option Z;
  n_murmursCount : option Z }.

(** [const { password, ...userWithoutPassword } = user] *)
Definition userWithoutPassword (user : JsObject) : JsObject :=
  delete "password" user.

Definition by_id (id : string) (u : User.t) : bool :=
  String.eqb (User.id u) id.

(** Unique indexes [users_username_key] and [users_email_key]. *)
Definition clashes (username email : string) (u : User.t) : bool :=
  String.eqb (User.username u) username || String.eqb (User.email u) email.

Section WithLibraries.
(** [cuid()] as a function of the number of identifiers issued before,
    and [bcrypt.hash(plain, rounds)]. *)
Variable cuid : nat → string.
Variable bcrypt_hash : string → Z → string.

Definition create (userData : IUserCreate) : Async JsObject :=
  let hashedPassword := bcrypt_hash (c_password userData) 12 in
  λ db,
  if existsb (clashes (c_username userData) (c_email userData)) (users db)
  then (inl UniqueConstraintError, db)
  else
    let user :=
      User.mk (cuid (next_cuid db)) (c_username userData)
        (c_email userData) (c_displayName userData) hashedPassword
        (c_avatar userData) (c_bio userData) 0 0 0 true None
        (now db) (now db) in
    (inr (userWithoutPassword (User.to_object user)),
     bump_cuid (set_users (λ us, us ++ [user]) db)).
End WithLibraries.

Definition findBy (where_ : User.t → bool) : Async (option JsObject) :=
  reads (λ db,
    match Prisma.findFirst where_ (users db) with
    | None => None
    | Some user => Some (userWithoutPassword (User.to_object user))
    end).

Definition findById (id : string) : Async (option JsObject) :=
  findBy (by_id id).

Definition findByEmail (email : string) : Async (option JsObject) :=
  findBy (λ u, String.eqb (User.email u) email).

Definition findByUsername (username : string) : Async (option JsObject) :=
  findBy (λ u, String.eqb (User.username u) username).

Definition apply_update (d : IUserUpdate) (t : Z) (u : User.t) : User.t :=
  User.mk (User.id u)
    (default (User.username u) (u_username d))
    (default (User.email u) (u_email d))
    (default (User.displayName u) (u_displayName d))
    (User.password u)
    (match u_avatar d with Some a => Some a | None => User.avatar u end)
    (match u_bio d with Some b => Some b | None => User.bio u end)
    (User.followersCount u) (User.followingCount u) (User.murmursCount u)
    (User.isActive u) (User.lastLogin u) (User.createdAt u) t.

(** [prisma.user.update] rejects when no row has the id, and when the new
    username or email is already taken by another row. *)
Definition update (id : string) (userData : IUserUpdate)
  : Async (option JsObject) := λ db,
  match Prisma.findFirst (by_id id) (users db) with
  | None => (inl RecordNotFoundError, db)
  | Some old =>
    let new := apply_update userData (now db) old in
    if existsb (λ u, negb (by_id id u) &&
                     clashes (User.username new) (User.email new) u)
               (users db)
    then (inl UniqueConstraintError, db)
    else (inr (Some (userWithoutPassword (User.to_object new))),
          set_users (Prisma.modify (by_id id) (apply_update userData (now db)))
                    db)
  end.

(** [data: counts] assigns each given counter; nothing is added to or
    subtracted from the stored value. *)
Definition apply_counts (c : Counts) (t : Z) (u : User.t) : User.t :=
  User.mk (User.id u) (User.username u) (User.email u) (User.displayName u)
    (User.password u) (User.avatar u) (User.bio u)
    (default (User.followersCount u) (n_followersCount c))
    (default (User.followingCount u) (n_followingCount c))
    (default (User.murmursCount u) (n_murmursCount c))
    (User.isActive u) (User.lastLogin u) (User.createdAt u) t.

Definition updateCounts (id : string) (counts : Counts) : Async unit :=
  λ db,
  match Prisma.findFirst (by_id id) (users db) with
  | None => (inl RecordNotFoundError, db)
  | Some _ =>
    (inr tt, set_users (Prisma.modify (by_id id) (apply_counts counts (now db)))
                       db)
  end.

(** The [select] of [search]: thirteen columns, listed one by one. *)
Definition search_select : list string :=
  [ "id"; "username"; "email"; "displayName"; "avatar"; "bio";
    "followersCount"; "followingCount"; "murmursCount"; "isActive";
    "lastLogin"; "createdAt"; "updatedAt" ].

Definition select (fields : list string) (o : JsObject) : JsObject :=
  filter (λ kv, kv.1 ∈ fields) o.

Section WithCollation.
(** [{ contains: query, mode: 'insensitive' }], decided by the database
    collation. *)
Variable contains_insensitive : string → string → bool.

Definition search_where (query : string) (u : User.t) : bool :=
  (contains_insensitive (User.username u) query ||
   contains_insensitive (User.displayName u) query) && User.isActive u.

Definition search (query : string) (limit offset : nat)
  : Async (list JsObject) :=
  reads (λ db,
    map (λ u, select search_select (User.to_object u))
        (Prisma.findMany (search_where query) User.followersCount
                         limit offset (users db))).
End WithCollation.
End UserService.

(** ** models/Like.ts *)

Module LikeService.
Definition by_key (userId murmurId : string) (l : Like.t) : bool :=
  String.eqb (Like.userId l) userId && String.eqb (Like.murmurId l) murmurId.

Section WithLibraries.
Variable cuid : nat → string.

(** [prisma.like.create]: the unique index on (userId, murmurId) and the
    two foreign keys are checked by the database. *)
Definition create (userId murmurId : string) : Async Like.t := λ db,
  if existsb (by_key userId murmurId) (likes db)
  then (inl UniqueConstraintError, db)
  else if existsb (UserService.by_id userId) (users db) &&
          existsb (λ m, String.eqb (Murmur.id m) murmurId) (murmurs db)
  then
    let row := Like.mk (cuid (next_cuid db)) userId murmurId (now db) in
    (inr row, bump_cuid (set_likes (λ ls, ls ++ [row]) db))
  else (inl ForeignKeyError, db).

Definition like (userId murmurId : string) : Async Like.t :=
  create userId murmurId.
End WithLibraries.

Definition findByUserAndMurmur (userId murmurId : string)
  : Async (option Like.t) :=
  reads (λ db, Prisma.findFirst (by_key userId murmurId) (likes db)).

(** [prisma.like.delete] rejects when the row is absent. *)
Definition prisma_like_delete (userId murmurId : string) : Async unit :=
  λ db,
  if existsb (by_key userId murmurId) (likes db)
  then (inr tt, set_likes (Prisma.remove (by_key userId murmurId)) db)
  else (inl RecordNotFoundError, db).

Definition delete (userId murmurId : string) : Async bool :=
  try_catch (prisma_like_delete userId murmurId ;; mret true)
            (λ _, mret false).

Definition unlike (userId murmurId : string) : Async bool :=
  delete userId murmurId.

Definition isUserLiked (userId murmurId : string) : Async bool :=
  like ← findByUserAndMurmur userId murmurId;
  mret (bool_decide (is_Some like)).

Definition getLikeCount (murmurId : string) : Async nat :=
  reads (λ db,
    Prisma.count (λ l, String.eqb (Like.murmurId l) murmurId) (likes db)).

(** [deleteMany({ where: { murmurId } })] and [deleteMany({ where: { userId } })] *)
Definition deleteAllByMurmur (murmurId : string) : Async unit := λ db,
  (inr tt,
   set_likes (Prisma.remove (λ l, String.eqb (Like.murmurId l) murmurId)) db).

Definition deleteAllByUser (userId : string) : Async unit := λ db,
  (inr tt,
   set_likes (Prisma.remove (λ l, String.eqb (Like.userId l) userId)) db).

(** The murmur a like row points to ([include: { murmur }]). *)
Definition murmur_of (db : Db) (l : Like.t) : option Murmur.t :=
  Prisma.findFirst (λ m, String.eqb (Murmur.id m) (Like.murmurId l))
                   (murmurs db).

(** The [where] of [getLikesByUser]: the user's likes whose murmur is a
    root post that is not deleted. *)
Definition likesByUser_where (db : Db) (userId : string) (l : Like.t) : bool :=
  String.eqb (Like.userId l) userId &&
  match murmur_of db l with
  | Some m => bool_decide (Murmur.replyToId m = None) &&
              negb (Murmur.isDeleted m)
  | None => false
  end.

Definition getLikesByUser (userId : string) (limit offset : nat)
  : Async (list (Like.t * option Murmur.t) * nat) :=
  reads (λ db,
    (map (λ l, (l, murmur_of db l))
         (Prisma.findMany (likesByUser_where db userId) Like.createdAt
                          limit offset (likes db)),
     Prisma.count (likesByUser_where db userId) (likes db))).
End LikeService.

(** ** models/Follow.ts *)

Module FollowService.
Definition by_key (followerId followingId : string) (f : Follow.t) : bool :=
  String.eqb (Follow.followerId f) followerId &&
  String.eqb (Follow.followingId f) followingId.

Section WithLibraries.
Variable cuid : nat → string.

(** [prisma.follow.create]: unique index on (followerId, followingId),
    foreign keys to both users. *)
Definition prisma_follow_create (followerId followingId : string)
  : Async Follow.t := λ db,
  if existsb (by_key followerId followingId) (follows db)
  then (inl UniqueConstraintError, db)
  else if existsb (UserService.by_id followerId) (users db) &&
          existsb (UserService.by_id followingId) (users db)
  then
    let row := Follow.mk (cuid (next_cuid db)) followerId followingId
                         (now db) in
    (inr row, bump_cuid (set_follows (λ fs, fs ++ [row]) db))
  else (inl ForeignKeyError, db).

Definition create (followerId followingId : string) : Async Follow.t :=
  if String.eqb followerId followingId
  then throw SelfFollowError
  else prisma_follow_create followerId followingId.
End WithLibraries.

Definition findByFollowerAndFollowing (followerId followingId : string)
  : Async (option Follow.t) :=
  reads (λ db, Prisma.findFirst (by_key followerId followingId) (follows db)).

Definition prisma_follow_delete (followerId followingId : string)
  : Async unit := λ db,
  if existsb (by_key followerId followingId) (follows db)
  then (inr tt, set_follows (Prisma.remove (by_key followerId followingId)) db)
  else (inl RecordNotFoundError, db).

Definition delete (followerId followingId : string) : Async bool :=
  try_catch (prisma_follow_delete followerId followingId ;; mret true)
            (λ _, mret false).

Definition isFollowing (followerId followingId : string) : Async bool :=
  follow ← findByFollowerAndFollowing followerId followingId;
  mret (bool_decide (is_Some follow)).

(** The [select] on the joined user in [getFollowers] / [getFollowing]. *)
Definition follow_select : list string :=
  [ "id"; "username"; "displayName"; "avatar"; "followersCount";
    "followingCount" ].

Definition joined_user (db : Db) (id : string) : option JsObject :=
  match Prisma.findFirst (UserService.by_id id) (users db) with
  | None => None
  | Some u => Some (UserService.select follow_select (User.to_object u))
  end.

Definition getFollowing (userId : string) (limit offset : nat)
  : Async (list JsObject * nat) :=
  reads (λ db,
    let where_ := λ f, String.eqb (Follow.followerId f) userId in
    let follows_ :=
      Prisma.findMany where_ Follow.createdAt limit offset (follows db) in
    (omap (λ f, joined_user db (Follow.followingId f)) follows_,
     Prisma.count where_ (follows db))).

Definition getFollowers (userId : string) (limit offset : nat)
  : Async (list JsObject * nat) :=
  reads (λ db,
    let where_ := λ f, String.eqb (Follow.followingId f) userId in
    let follows_ :=
      Prisma.findMany where_ Follow.createdAt limit offset (follows db) in
    (omap (λ f, joined_user db (Follow.followerId f)) follows_,
     Prisma.count where_ (follows db))).

(** [{ followersCount, followingCount }], both counted on the edge table. *)
Definition getFollowCounts (userId : string) : Async (nat * nat) :=
  reads (λ db,
    (Prisma.count (λ f, String.eqb (Follow.followingId f) userId) (follows db),
     Prisma.count (λ f, String.eqb (Follow.followerId f) userId) (follows db))).

(** The [select] on the joined user in [getRecentFollowers] /
    [getRecentFollowing]. *)
Definition recent_select : list string :=
  [ "id"; "username"; "displayName"; "avatar" ].

Definition recent_user (db : Db) (id : string) : option JsObject :=
  match Prisma.findFirst (UserService.by_id id) (users db) with
  | None => None
  | Some u => Some (UserService.select recent_select (User.to_object u))
  end.

Definition getRecentFollowers (userId : string) (limit : nat)
  : Async (list JsObject) :=
  reads (λ db,
    omap (λ f, recent_user db (Follow.followerId f))
         (Prisma.findMany (λ f, String.eqb (Follow.followingId f) userId)
                          Follow.createdAt limit 0 (follows db))).

Definition getRecentFollowing (userId : string) (limit : nat)
  : Async (list JsObject) :=
  reads (λ db,
    omap (λ f, recent_user db (Follow.followingId f))
         (Prisma.findMany (λ f, String.eqb (Follow.followerId f) userId)
                          Follow.createdAt limit 0 (follows db))).

(** Two [deleteMany] calls under one [Promise.all]. *)
Definition removeAllFollowsForUser (userId : string) : Async unit :=
  promise_all2
    (λ db, (inr tt,
            set_follows
              (Prisma.remove (λ f, String.eqb (Follow.followerId f) userId))
              db))
    (λ db, (inr tt,
            set_follows
              (Prisma.remove (λ f, String.eqb (Follow.followingId f) userId))
              db)) ;;
  mret tt.
End FollowService.

(** ** models/Notification.ts *)

Module NotificationService.
(** The [where] of the duplicate check: [murmurId] takes part only when
    the argument is truthy. *)
Definition matches (type : NotificationType) (userId actorId : string)
    (murmurId : option string) (n : Notification.t) : bool :=
  NotificationType_eqb (Notification.type n) type &&
  String.eqb (Notification.userId n) userId &&
  String.eqb (Notification.actorId n) actorId &&
  (if truthy_opt murmurId
   then bool_decide (Notification.murmurId n = murmurId)
   else true).

Section WithLibraries.
Variable cuid : nat → string.

(** [prisma.notification.create]: foreign keys to the recipient, the
    actor and, when given, the murmur. *)
Definition prisma_notification_create (type : NotificationType)
    (userId actorId : string) (murmurId : option string)
  : Async Notification.t := λ db,
  if existsb (UserService.by_id userId) (users db) &&
     existsb (UserService.by_id actorId) (users db) &&
     match murmurId with
     | Some m => existsb (λ r, String.eqb (Murmur.id r) m) (murmurs db)
     | None => true
     end
  then
    let row := Notification.mk (cuid (next_cuid db)) type userId actorId
                               murmurId false (now db) in
    (inr row, bump_cuid (set_notifications (λ ns, ns ++ [row]) db))
  else (inl ForeignKeyError, db).

Definition create (type : NotificationType) (userId actorId : string)
    (murmurId : option string) : Async (option Notification.t) :=
  if String.eqb userId actorId then mret None
  else
    existing ← reads (λ db,
      Prisma.findFirst (matches type userId actorId murmurId)
                       (notifications db));
    match existing with
    | Some n => mret (Some n)
    | None =>
      n ← prisma_notification_create type userId actorId
            (if truthy_opt murmurId then murmurId else None);
      mret (Some n)
    end.
End WithLibraries.

Definition owned (notificationId userId : string) (n : Notification.t)
  : bool :=
  String.eqb (Notification.id n) notificationId &&
  String.eqb (Notification.userId n) userId.

Definition unread (userId : string) (n : Notification.t) : bool :=
  String.eqb (Notification.userId n) userId && negb (Notification.isRead n).

Definition mark_read (n : Notification.t) : Notification.t :=
  Notification.mk (Notification.id n) (Notification.type n)
    (Notification.userId n) (Notification.actorId n)
    (Notification.murmurId n) true (Notification.createdAt n).

(** [updateMany] and [deleteMany] resolve to [{ count }], the number of rows
    they touched. *)
Definition markAsRead (notificationId userId : string) : Async nat := λ db,
  (inr (Prisma.count (owned notificationId userId) (notifications db)),
   set_notifications (Prisma.modify (owned notificationId userId) mark_read)
                     db).

Definition markAllAsRead (userId : string) : Async nat := λ db,
  (inr (Prisma.count (unread userId) (notifications db)),
   set_notifications (Prisma.modify (unread userId) mark_read) db).

Definition getUnreadCount (userId : string) : Async nat :=
  reads (λ db, Prisma.count (unread userId) (notifications db)).

Definition delete (notificationId userId : string) : Async nat := λ db,
  (inr (Prisma.count (owned notificationId userId) (notifications db)),
   set_notifications (Prisma.remove (owned notificationId userId)) db).
End NotificationService.

(** ** models/Murmur.ts *)

(** What every listing resolves to: [{ murmurs, totalCount }]. *)
Module Listing.
Record t : Type := mk {
  murmurs : list Murmur.t;
  totalCount : nat }.
End Listing.

Module MurmurService.
(** Every listing below runs its [where] twice: once in [findMany], once
    in [count]. *)
Definition listing (where_ : Murmur.t → bool) (orderBy : Murmur.t → Z)
    (limit offset : nat) : Async Listing.t :=
  reads (λ db,
    Listing.mk (Prisma.findMany where_ orderBy limit offset (murmurs db))
               (Prisma.count where_ (murmurs db))).

Definition findById (id : string) : Async (option Murmur.t) :=
  reads (λ db,
    Prisma.findFirst
      (λ m, String.eqb (Murmur.id m) id && negb (Murmur.isDeleted m))
      (murmurs db)).

Definition followingIds (userId : string) (db : Db) : list string :=
  map Follow.followingId
      (List.filter (λ f, String.eqb (Follow.followerId f) userId) (follows db)).

Definition in_ids (ids : list string) (m : Murmur.t) : bool :=
  bool_decide (Murmur.userId m ∈ ids).

(** [getTimeline] of models/Murmur.ts. *)
Definition getTimeline (userId : string) (limit offset : nat)
  : Async Listing.t := λ db,
  let ids := followingIds userId db in
  listing (λ m, in_ids ids m && negb (Murmur.isDeleted m))
          Murmur.createdAt limit offset db.

(** [getTimeline] of the compiled dist/models/Murmur.js, which adds
    [followingIds.push(userId)]. *)
Definition getTimeline_dist (userId : string) (limit offset : nat)
  : Async Listing.t := λ db,
  let ids := followingIds userId db ++ [userId] in
  listing (λ m, in_ids ids m && negb (Murmur.isDeleted m))
          Murmur.createdAt limit offset db.

(** [getPublicMurmurs(limit, offset)]: two parameters; a third argument
    passed by a caller is dropped. *)
Definition getPublicMurmurs (limit offset : nat) : Async Listing.t :=
  listing (λ m, negb (Murmur.isDeleted m)) Murmur.createdAt limit offset.

Definition getUserMurmurs (userId : string) (limit offset : nat)
  : Async Listing.t :=
  listing (λ m, String.eqb (Murmur.userId m) userId &&
                negb (Murmur.isDeleted m))
          Murmur.createdAt limit offset.

Definition day_ms : Z := 24 * 60 * 60 * 1000.

Definition getTrending (limit offset : nat) : Async Listing.t := λ db,
  listing (λ m, negb (Murmur.isDeleted m) &&
                bool_decide (now db - day_ms ≤ Murmur.createdAt m)%Z)
          Murmur.likesCount limit offset db.

Section WithCollation.
Variable contains_insensitive : string → string → bool.

Definition search (query : string) (limit offset : nat) : Async Listing.t :=
  listing (λ m, negb (Murmur.isDeleted m) &&
                contains_insensitive (Murmur.content m) query)
          Murmur.createdAt limit offset.
End WithCollation.

Definition by_id (id : string) (m : Murmur.t) : bool :=
  String.eqb (Murmur.id m) id.

Section WithLibraries.
Variable cuid : nat → string.

(** [prisma.murmur.create]: foreign keys to the author and, when given, to
    the parent; [replyToId] is stored only when truthy.  The handler's
    validator has already limited [content] to the 280 characters of the
    column. *)
Definition create (userId content : string) (replyToId : option string)
  : Async Murmur.t := λ db,
  let parent := if truthy_opt replyToId then replyToId else None in
  if existsb (UserService.by_id userId) (users db) &&
     match parent with
     | Some p => existsb (by_id p) (murmurs db)
     | None => true
     end
  then
    let row := Murmur.mk (cuid (next_cuid db)) content userId parent
                         0 0 0 false (now db) (now db) in
    (inr row, bump_cuid (set_murmurs (λ ms, ms ++ [row]) db))
  else (inl ForeignKeyError, db).
End WithLibraries.

Definition mark_deleted (t : Z) (m : Murmur.t) : Murmur.t :=
  Murmur.mk (Murmur.id m) (Murmur.content m) (Murmur.userId m)
    (Murmur.replyToId m) (Murmur.likesCount m) (Murmur.repliesCount m)
    (Murmur.retweetsCount m) true (Murmur.createdAt m) t.

(** [update] rejects when no row has the id; the [catch] turns that into
    [false]. *)
Definition softDelete (id : string) : Async bool := λ db,
  if existsb (by_id id) (murmurs db)
  then (inr true,
        set_murmurs (Prisma.modify (by_id id) (mark_deleted (now db))) db)
  else (inr false, db).

(** The range of an [INTEGER] column. *)
Definition int32 (z : Z) : bool :=
  bool_decide (-2147483648 ≤ z ≤ 2147483647)%Z.

Definition with_repliesCount (k : Z) (t : Z) (m : Murmur.t) : Murmur.t :=
  Murmur.mk (Murmur.id m) (Murmur.content m) (Murmur.userId m)
    (Murmur.replyToId m) (Murmur.likesCount m) k
    (Murmur.retweetsCount m) (Murmur.isDeleted m) (Murmur.createdAt m) t.

(** [data: { repliesCount: { increment: 1 } }] or [{ decrement: 1 }]: the
    database adds to the stored value; the call rejects when the row is
    missing or the sum leaves the column's range, and the [catch] turns
    either into [false]. *)
Definition adjustRepliesCount (delta : Z) (id : string) : Async bool := λ db,
  match Prisma.findFirst (by_id id) (murmurs db) with
  | Some m =>
    if int32 (Murmur.repliesCount m + delta)
    then (inr true,
          set_murmurs
            (Prisma.modify (by_id id)
               (λ r, with_repliesCount (Murmur.repliesCount r + delta)
                                       (now db) r))
            db)
    else (inr false, db)
  | None => (inr false, db)
  end.

Definition incrementRepliesCount (id : string) : Async bool :=
  adjustRepliesCount 1 id.

Definition decrementRepliesCount (id : string) : Async bool :=
  adjustRepliesCount (-1) id.

(** [updateMany({ where: { userId }, data: { isDeleted: true } })] *)
Definition removeAllMurmursForUser (userId : string) : Async unit := λ db,
  (inr tt,
   set_murmurs
     (Prisma.modify (λ m, String.eqb (Murmur.userId m) userId)
                    (mark_deleted (now db)))
     db).
End MurmurService.

(** ** Route handlers *)

(** What a handler sends: [res.json({ success: true, message, data })] or
    [res.status(code).json({ success: false, error })]. *)
Inductive Response (D : Type) : Type :=
| Success (message : option string) (data : D)
| Failure (status : nat) (error : string).
Arguments Success {D} message data.
Arguments Failure {D} status error.

Definition is_success {D} (r : Response D) : bool :=
  match r with Success _ _ => true | Failure _ _ => false end.

(** The [try { ... } catch (error) { return res.status(500)... }] that wraps
    every handler body. *)
Definition handler {D} (body : Async (Response D)) (on_error : string)
  : Db → Response D * Db := λ db,
  match body db with
  | (inr r, db') => (r, db')
  | (inl _, db') => (Failure 500 on_error, db')
  end.

(** [Promise.all(ids.map(f))] for a read-only [f]. *)
Definition promise_all {A B} (f : A → Async B) (l : list A) : Async (list B) :=
  mapM f l.

Module UsersRoutes.
Record FollowData : Type := mkFollowData {
  isFollowing : bool;
  followersCount : Z }.

Section WithLibraries.
Variable cuid : nat → string.

(** [POST /:userId/follow]; [currentUserId] is [req.user.id]. *)
Definition follow_handler (currentUserId targetUserId : string)
  : Db → Response FollowData * Db :=
  handler
    (if negb (truthy targetUserId)
     then mret (Failure 400 "User ID is required")
     else
       targetUser ← UserService.findById targetUserId;
       match targetUser with
       | None => mret (Failure 404 "User not found")
       | Some targetUser =>
         existingFollow ←
           FollowService.findByFollowerAndFollowing currentUserId
                                                    targetUserId;
         match existingFollow with
         | Some _ => mret (Failure 409 "Already following this user")
         | None =>
           FollowService.create cuid currentUserId targetUserId ;;
           promise_all2
             (UserService.updateCounts currentUserId
                (UserService.mkCounts None (Some 1%Z) None))
             (UserService.updateCounts targetUserId
                (UserService.mkCounts (Some 1%Z) None None)) ;;
           NotificationService.create cuid follow targetUserId
                                      currentUserId None ;;
           mret (Success (Some "User followed successfully")
                   (mkFollowData true
                      (num_field targetUser "followersCount" + 1)))
         end
       end)
    "Failed to follow user".
End WithLibraries.

(** [DELETE /:userId/follow] *)
Definition unfollow_handler (currentUserId targetUserId : string)
  : Db → Response FollowData * Db :=
  handler
    (if negb (truthy targetUserId)
     then mret (Failure 400 "User ID is required")
     else
       targetUser ← UserService.findById targetUserId;
       match targetUser with
       | None => mret (Failure 404 "User not found")
       | Some targetUser =>
         follow ←
           FollowService.findByFollowerAndFollowing currentUserId
                                                    targetUserId;
         match follow with
         | None => mret (Failure 409 "Not following this user")
         | Some _ =>
           FollowService.delete currentUserId targetUserId ;;
           promise_all2
             (UserService.updateCounts currentUserId
                (UserService.mkCounts None (Some (-1)%Z) None))
             (UserService.updateCounts targetUserId
                (UserService.mkCounts (Some (-1)%Z) None None)) ;;
           mret (Success (Some "User unfollowed successfully")
                   (mkFollowData false
                      (Z.max 0 (num_field targetUser "followersCount" - 1))))
         end
       end)
    "Failed to unfollow user".
End UsersRoutes.

Module MurmursRoutes.
(** [{ ...murmur, likesCount: likeCounts[index], isLikedByUser }] *)
Record FormattedMurmur : Type := mkFormatted {
  murmur : Murmur.t;
  likesCount : nat;
  isLikedByUser : bool }.

Record Pagination : Type := mkPagination {
  page : nat;
  limit : nat;
  totalCount : nat;
  totalPages : nat;
  hasNextPage : bool;
  hasPreviousPage : bool }.

Record Feed : Type := mkFeed {
  murmurs : list FormattedMurmur;
  pagination : Pagination }.

(** [page] and [limit] have passed the validators: [1 <= page] and
    [1 <= limit <= 50]. *)
Definition paginate (page limit totalCount : nat) : Pagination :=
  mkPagination page limit totalCount
    ((totalCount + limit - 1) / limit)
    (bool_decide (page * limit < totalCount))
    (bool_decide (1 < page)).

Definition format (userId : option string) (ms : list Murmur.t)
  : Async (list FormattedMurmur) :=
  likeCounts ← promise_all (λ m, LikeService.getLikeCount (Murmur.id m)) ms;
  userLikes ←
    match userId with
    | Some u => promise_all (λ m, LikeService.isUserLiked u (Murmur.id m)) ms
    | None => mret []
    end;
  mret (imap (λ index m,
                mkFormatted m (default 0 (likeCounts !! index))
                  (match userId with
                   | Some _ => default false (userLikes !! index)
                   | None => false
                   end)) ms).

(** [GET /timeline]; [userId] is [req.user.id].  The handler first asks
    [FollowService.getFollowing] for up to 1000 followed users and maps them
    to their ids, a list it never reads again: [MurmurService.getTimeline]
    looks the follow edges up by itself. *)
Definition timeline_handler (userId : string) (page limit : nat)
  : Db → Response Feed * Db :=
  handler
    (let offset := (page - 1) * limit in
     FollowService.getFollowing userId 1000 0 ;;
     r ← MurmurService.getTimeline userId limit offset;
     formatted ← format (Some userId) (Listing.murmurs r);
     mret (Success None
             (mkFeed formatted
                (paginate page limit (Listing.totalCount r)))))
    "Failed to fetch timeline".

(** [GET /]; [user] is [req.user?.id] as left by [optionalAuth].  Under
    the comment [// Exclude current user's murmurs if authenticated] the
    handler passes it as a third argument, [excludeUserId], to
    [MurmurService.getPublicMurmurs], whose two-parameter definition takes
    no such argument. *)
Definition public_handler (user : option string) (page limit : nat)
  : Db → Response Feed * Db :=
  handler
    (let offset := (page - 1) * limit in
     let excludeUserId := user in
     r ← MurmurService.getPublicMurmurs limit offset;
     formatted ← format user (Listing.murmurs r);
     mret (Success None
             (mkFeed formatted
                (paginate page limit (Listing.totalCount r)))))
    "Failed to fetch murmurs".

(** [{ isLiked, likesCount }] *)
Module LikeData.
Record t : Type := mk {
  isLiked : bool;
  likesCount : nat }.
End LikeData.

(** [GET /user/:userId/likes]; [currentUserId] is [req.user.id].  The
    answer's [totalCount] is the number of murmurs on this page, while
    [totalPages] and [hasNextPage] come from the count of the query. *)
Definition liked_handler (currentUserId userId : string) (page limit : nat)
  : Db → Response Feed * Db :=
  handler
    (if negb (truthy userId)
     then mret (Failure 400 "User ID is required")
     else
       let offset := (page - 1) * limit in
       user ← UserService.findById userId;
       match user with
       | None => mret (Failure 404 "User not found")
       | Some _ =>
         r ← LikeService.getLikesByUser userId limit offset;
         let murmurs_ :=
           omap (λ lm : Like.t * option Murmur.t,
                   match lm.2 with
                   | Some m => if Murmur.isDeleted m then None else Some m
                   | None => None
                   end) r.1 in
         formatted ← format (Some currentUserId) murmurs_;
         mret (Success None
                 (mkFeed formatted
                    (mkPagination page limit (length murmurs_)
                       ((r.2 + limit - 1) / limit)
                       (bool_decide (page * limit < r.2))
                       (bool_decide (1 < page)))))
       end)
    "Failed to fetch user liked murmurs".

(** [DELETE /:id]; [userId] is [req.user.id]. *)
Definition delete_handler (userId murmurId : string)
  : Db → Response unit * Db :=
  handler
    (if negb (truthy murmurId)
     then mret (Failure 400 "Murmur ID is required")
     else
       found ← MurmurService.findById murmurId;
       match found with
       | None =>
         mret (Failure 404
           "Murmur not found or you do not have permission to delete it")
       | Some m =>
         if negb (String.eqb (Murmur.userId m) userId)
         then mret (Failure 404
           "Murmur not found or you do not have permission to delete it")
         else
           MurmurService.softDelete murmurId ;;
           (if negb (truthy_opt (Murmur.replyToId m))
            then UserService.updateCounts userId
                   (UserService.mkCounts None None (Some (-1)%Z))
            else MurmurService.decrementRepliesCount
                   (default "" (Murmur.replyToId m)) ;; mret tt) ;;
           LikeService.deleteAllByMurmur murmurId ;;
           mret (Success (Some "Murmur deleted successfully") tt)
       end)
    "Failed to delete murmur".

Section WithLibraries.
Variable cuid : nat → string.

(** [POST /]; [userId] is [req.user.id], [content] and [replyToId] are the
    validated body.  The answer is sent with status 201. *)
Definition create_handler (userId content : string)
    (replyToId : option string) : Db → Response FormattedMurmur * Db :=
  handler
    (missing ←
       (if truthy_opt replyToId
        then parentMurmur ←
               MurmurService.findById (default "" replyToId);
             mret (bool_decide (parentMurmur = None))
        else mret false);
     if missing : bool
     then mret (Failure 404 "Parent murmur not found")
     else
       m ← MurmurService.create cuid userId content replyToId;
       (if negb (truthy_opt replyToId)
        then UserService.updateCounts userId
               (UserService.mkCounts None None (Some 1%Z))
        else mret tt) ;;
       (if truthy_opt replyToId
        then parentMurmur ←
               MurmurService.findById (default "" replyToId);
             match parentMurmur with
             | Some parent =>
               NotificationService.create cuid reply (Murmur.userId parent)
                                          userId replyToId ;;
               MurmurService.incrementRepliesCount (default "" replyToId) ;;
               mret tt
             | None => mret tt
             end
        else mret tt) ;;
       mret (Success (Some "Murmur created successfully")
               (mkFormatted m 0 false)))
    "Failed to create murmur".

(** [POST /:id/like]; [userId] is [req.user.id]. *)
Definition like_handler (userId murmurId : string)
  : Db → Response LikeData.t * Db :=
  handler
    (if negb (truthy murmurId)
     then mret (Failure 400 "Murmur ID is required")
     else
       found ← MurmurService.findById murmurId;
       match found with
       | None => mret (Failure 404 "Murmur not found")
       | Some m =>
         isLiked ← LikeService.isUserLiked userId murmurId;
         if isLiked : bool
         then
           LikeService.unlike userId murmurId ;;
           n ← LikeService.getLikeCount murmurId;
           mret (Success (Some "Murmur unliked")
                   (LikeData.mk false (Nat.max 0 n)))
         else
           LikeService.like cuid userId murmurId ;;
           NotificationService.create cuid like (Murmur.userId m) userId
                                      (Some murmurId) ;;
           n ← LikeService.getLikeCount murmurId;
           mret (Success (Some "Murmur liked") (LikeData.mk true n))
       end)
    "Failed to like/unlike murmur".
End WithLibraries.
End MurmursRoutes.

(** ** Concrete stores used by the examples *)

Module Sample.
(** A deterministic stand-in for [cuid()]: "c0", "c1", ... *)
Definition cuid (n : nat) : string :=
  "c" +:+ NilEmpty.string_of_uint (Nat.to_uint n).

Definition user (id : string) (followers following : Z) : User.t :=
  User.mk id id (id +:+ "@example.com") id "$2a$12$hash" None None
          followers following 0 true None 0 0.

Definition post (id author : string) (replyTo : option string)
    (deleted : bool) (created : Z) : Murmur.t :=
  Murmur.mk id "hello world" author replyTo 0 0 0 deleted created created.

Definition empty_graph : Db :=
  mkDb [user "alice" 0 0; user "bob" 0 0; user "carol" 0 0] [] [] [] [] 100 0.

(** alice already follows bob; the cached counters say 3 and 5. *)
Definition alice_follows_bob : Db :=
  mkDb [user "alice" 0 3; user "bob" 5 0]
       [] [Follow.mk "f1" "alice" "bob" 50] [] [] 100 0.

(** bob wrote a root post, a reply to it and a deleted post; alice wrote
    one root post; alice follows bob and likes his root post. *)
Definition small_feed : Db :=
  mkDb [user "alice" 0 1; user "bob" 1 0]
       [ post "m1" "bob" None false 10;
         post "m2" "bob" (Some "m1") false 20;
         post "m3" "bob" None true 30;
         post "m4" "alice" None false 40 ]
       [Follow.mk "f1" "alice" "bob" 5]
       [Like.mk "l1" "alice" "m1" 15]
       [] 100 0.
End Sample.

(** bob has an unread like notification from alice and alice an unread
    follow notification from bob; carol wrote a reply to bob's post. *)
Module Inbox.
Definition db : Db :=
  mkDb [Sample.user "alice" 0 1; Sample.user "bob" 1 0; Sample.user "carol" 0 0]
       [ Sample.post "m1" "bob" None false 10;
         Murmur.mk "m5" "nice" "carol" (Some "m1") 0 0 0 false 20 20 ]
       [Follow.mk "f1" "alice" "bob" 5]
       [Like.mk "l1" "alice" "m1" 15]
       [ Notification.mk "n1" like "bob" "alice" (Some "m1") false 15;
         Notification.mk "n2" follow "alice" "bob" None false 16 ]
       100 0.
End Inbox.

(** ** Vocabulary of the statements *)

(** A stored notification carries exactly the tuple (type, R, A, M). *)
Definition has_tuple (type : NotificationType) (R A M : string)
    (n : Notification.t) : bool :=
  NotificationType_eqb (Notification.type n) type &&
  String.eqb (Notification.userId n) R &&
  String.eqb (Notification.actorId n) A &&
  bool_decide (Notification.murmurId n = Some M).

Definition user_exists (id : string) (db : Db) : bool :=
  existsb (UserService.by_id id) (users db).

Definition murmur_exists (id : string) (db : Db) : bool :=
  existsb (λ m, String.eqb (Murmur.id m) id) (murmurs db).

(** The caller follows the author of [m]: some follow edge leads from
    [userId] to the author. *)
Definition follows_author (userId : string) (db : Db) (m : Murmur.t) : bool :=
  existsb (λ f, String.eqb (Follow.followerId f) userId &&
                String.eqb (Follow.followingId f) (Murmur.userId m))
          (follows db).

Definition newest_first : relation Murmur.t :=
  λ a b, (Murmur.createdAt b ≤ Murmur.createdAt a)%Z.

(** The page cut out of the full ordered result by [take] and [skip]. *)
Definition page_of {A} (limit offset : nat) (all : list A) : list A :=
  take limit (drop offset all).

Global Instance Murmur_eq_dec : EqDecision Murmur.t.
Proof. solve_decision. Defined.

(** The store with every copy of the row [m] physically removed. *)
Definition without (m : Murmur.t) (db : Db) : Db :=
  set_murmurs (List.filter (λ r, negb (bool_decide (r = m)))) db.

(** A listing leaves [m] out: [m] is not among the items, and items and
    [totalCount] are what they are in the store without [m]. *)
Definition excludes (m : Murmur.t) (op : Async Listing.t)
    (db : Db) : Prop :=
  ∃ L, op db = (inr L, db) ∧
       (m ∉ Listing.murmurs L) ∧
       op (without m db) = (inr L, without m db).

(** The items of a listing call, and of a feed answer. *)
Definition listed (r : (Error + Listing.t) * Db)
  : list Murmur.t :=
  match r.1 with inr L => Listing.murmurs L | inl _ => [] end.

Definition answered (r : Response MurmursRoutes.Feed * Db) : list Murmur.t :=
  match r.1 with
  | Success _ feed => map MurmursRoutes.murmur (MurmursRoutes.murmurs feed)
  | Failure _ _ => []
  end.

(** The object has no [password] property. *)
Definition lacks_password (o : JsObject) : Prop := o !! "password" = None.

(** [P] holds of the value a call resolves to, if it resolves. *)
Definition resolves_to {A} (P : A → Prop) (r : (Error + A) * Db) : Prop :=
  match r.1 with inr x => P x | inl _ => True end.

(** An invariant of the store that a computation keeps, whether it
    resolves or rejects. *)
Definition preserves {A} (I : Db → Prop) (m : Async A) : Prop :=
  ∀ db, I db → I (m db).2.

(** The stored murmur with the given id, deleted or not. *)
Definition stored_murmur (id : string) (db : Db) : option Murmur.t :=
  Prisma.findFirst (MurmurService.by_id id) (murmurs db).

Definition stored_user (id : string) (db : Db) : option User.t :=
  Prisma.findFirst (UserService.by_id id) (users db).

Definition edge_exists (a b : string) (db : Db) : bool :=
  existsb (FollowService.by_key a b) (follows db).

Definition like_exists (u m : string) (db : Db) : bool :=
  existsb (LikeService.by_key u m) (likes db).

(** The number of like rows on a murmur, and of follow edges out of and
    into a user. *)
Definition like_count (m : string) (db : Db) : nat :=
  Prisma.count (λ l, String.eqb (Like.murmurId l) m) (likes db).

Definition following_count (u : string) (db : Db) : nat :=
  Prisma.count (λ f, String.eqb (Follow.followerId f) u) (follows db).

Definition followers_count (u : string) (db : Db) : nat :=
  Prisma.count (λ f, String.eqb (Follow.followingId f) u) (follows db).

(** The stored murmur with the given id that is not deleted. *)
Definition live_murmur (id : string) (db : Db) : option Murmur.t :=
  List.find (λ r, MurmurService.by_id id r && negb (Murmur.isDeleted r))
            (murmurs db).

(** Every property of the object is one of the listed names. *)
Definition only_keys (ks : list string) (o : JsObject) : Prop :=
  ∀ k, is_Some (o !! k) → k ∈ ks.

(** * Properties *)

(** ** Generic facts about the monad and the query blocks *)

Lemma find_existsb {A} (p : A → bool) (l : list A) :
  existsb p l = bool_decide (is_Some (List.find p l)).
Proof.
  induction l as [|x l IH]; simpl; [done|].
  destruct (p x); simpl; done.
Qed.

Lemma find_none_existsb {A} (p : A → bool) (l : list A) :
  List.find p l = None ↔ existsb p l = false.
Proof.
  rewrite find_existsb. split.
  - intros ->. apply bool_decide_eq_false_2. by intros [? ?].
  - intros H. apply bool_decide_eq_false_1 in H.
    destruct (List.find p l); [|done]. destruct H. eauto.
Qed.

(** ** Relationship graph *)

Section Follow.
Variable cuid : nat → string.

Lemma FollowService_create_self (a : string) (db : Db) :
  FollowService.create cuid a a db = (inl SelfFollowError, db).
Proof. unfold FollowService.create. by rewrite String.eqb_refl. Qed.

(** [updateCounts] stores the number it is given, whatever was there. *)
Lemma apply_counts_following (k : Z) (t : Z) (u : User.t) :
  User.followingCount
    (UserService.apply_counts (UserService.mkCounts None (Some k) None) t u)
  = k.
Proof. reflexivity. Qed.

(** C2. [follow(A, A)] fails with [SelfFollowError] in every store: the
    model method rejects before touching the store, and the route handler
    never answers with success, never creates a follow edge and never
    changes a counter. *)
Theorem follow_self_fails (a : string) (db : Db) :
  FollowService.create cuid a a db = (inl SelfFollowError, db) ∧
  (∃ status error,
     UsersRoutes.follow_handler cuid a a db = (Failure status error, db)).
Proof.
  split; [apply FollowService_create_self|].
  unfold UsersRoutes.follow_handler, handler.
  destruct (truthy a); simpl; [|eauto].
  unfold mbind, Async_bind, UserService.findById, UserService.findBy, reads.
  destruct (Prisma.findFirst _ (users db)); simpl; [|eauto].
  destruct (Prisma.findFirst _ (follows db)); simpl; [eauto|].
  rewrite FollowService_create_self. eauto.
Qed.
End Follow.

(** Inversion of a successful run, step by step. *)
Lemma bind_inr {A B} (m : Async A) (f : A → Async B) (db db' : Db) (y : B) :
  (m ≫= f) db = (inr y, db') →
  ∃ x db1, m db = (inr x, db1) ∧ f x db1 = (inr y, db').
Proof.
  unfold mbind, Async_bind. destruct (m db) as [[e|x] db1]; [discriminate|].
  eauto.
Qed.

Lemma handler_success {D} (body : Async (Response D)) (on_error : string)
    (db db' : Db) (message : option string) (data : D) :
  handler body on_error db = (Success message data, db') →
  body db = (inr (Success message data), db').
Proof.
  unfold handler. destruct (body db) as [[e|r] db1]; [discriminate|].
  by intros [= -> ->].
Qed.

Lemma promise_all2_inr {A B} (p : Async A) (q : Async B) (db db' : Db)
    (r : A * B) :
  promise_all2 p q db = (inr r, db') →
  ∃ db1, p db = (inr r.1, db1) ∧ q db1 = (inr r.2, db').
Proof.
  unfold promise_all2. destruct (p db) as [[e|x] db1].
  - destruct (q db1) as [[e'|y] db2]; discriminate.
  - destruct (q db1) as [[e'|y] db2] eqn:Hq; [discriminate|].
    intros [= <- <-]. eauto.
Qed.

Lemma updateCounts_inr (id : string) (c : UserService.Counts) (db db' : Db) :
  UserService.updateCounts id c db = (inr tt, db') →
  users db' = Prisma.modify (UserService.by_id id)
                (UserService.apply_counts c (now db)) (users db) ∧
  now db' = now db.
Proof.
  unfold UserService.updateCounts.
  destruct (Prisma.findFirst _ _); [|discriminate]. by intros [= <-].
Qed.

Section FollowSteps.
Variable cuid : nat → string.

Lemma follow_create_inr (a b : string) (db db' : Db) (row : Follow.t) :
  FollowService.create cuid a b db = (inr row, db') →
  a ≠ b ∧ users db' = users db ∧ now db' = now db.
Proof.
  unfold FollowService.create, FollowService.prisma_follow_create, throw.
  destruct (String.eqb_spec a b); [discriminate|].
  destruct (existsb _ (follows db)); [discriminate|].
  destruct (_ && _); [|discriminate]. by intros [= _ <-].
Qed.

Lemma notify_users (type : NotificationType) (R A : string)
    (M : option string) (db db' : Db) (r : option Notification.t) :
  NotificationService.create cuid type R A M db = (inr r, db') →
  users db' = users db.
Proof.
  unfold NotificationService.create.
  destruct (String.eqb R A); [by intros [= _ <-]|].
  intros H. apply bind_inr in H as (existing & db1 & Hread & H).
  unfold reads in Hread. injection Hread as <- <-.
  destruct (Prisma.findFirst _ _); [by injection H as _ <-|].
  apply bind_inr in H as (n & db1 & Hcreate & H).
  injection H as _ <-. revert Hcreate.
  unfold NotificationService.prisma_notification_create.
  destruct (_ && _); [|discriminate]. by intros [= _ <-].
Qed.

(** Every successful follow leaves the follower with [followingCount = 1],
    whatever the counter was and however many users are followed already. *)
Lemma follow_success_assigns_one (a b : string) (db db' : Db)
    (message : option string) (data : UsersRoutes.FollowData) :
  UsersRoutes.follow_handler cuid a b db = (Success message data, db') →
  ∀ u, u ∈ users db' → User.id u = a → User.followingCount u = 1%Z.
Proof.
  intros H. apply handler_success in H. revert H.
  unfold UsersRoutes.follow_handler.
  destruct (truthy b); simpl; [|discriminate].
  intros H. apply bind_inr in H as (target & db0 & _ & H).
  destruct target as [target|]; [|discriminate].
  apply bind_inr in H as (existing & db1 & _ & H).
  destruct existing; [discriminate|].
  apply bind_inr in H as (row & db2 & Hcreate & H).
  apply follow_create_inr in Hcreate as (Hab & Husers2 & _).
  apply bind_inr in H as (units & db3 & Hall & H).
  apply promise_all2_inr in Hall as (db2' & Hup1 & Hup2).
  destruct units as [[] []]. simpl in Hup1, Hup2.
  apply updateCounts_inr in Hup1 as (Husers2' & _).
  apply updateCounts_inr in Hup2 as (Husers3 & _).
  apply bind_inr in H as (n & db4 & Hnotify & H).
  apply notify_users in Hnotify. injection H as _ _ <-.
  rewrite Hnotify, Husers3, Husers2'. unfold Prisma.modify.
  intros u Hu Hid. rewrite List.map_map in Hu.
  apply list_elem_of_In, List.in_map_iff in Hu as (w & <- & _).
  revert Hid. unfold UserService.by_id.
  destruct (String.eqb_spec (User.id w) a) as [Hw|Hw]; simpl.
  - rewrite Hw. by destruct (String.eqb_spec a b).
  - by destruct (String.eqb_spec (User.id w) b).
Qed.
End FollowSteps.

(** C1. Two successful follows by alice, of bob and then of carol, starting
    from no edges and [followingCount = 0]: both edges are stored, both
    answers are successes, and alice's [followingCount] is 1, not 2. *)
Theorem follow_twice_followingCount_is_one :
  let '(r1, db1) :=
    UsersRoutes.follow_handler Sample.cuid "alice" "bob" Sample.empty_graph in
  let '(r2, db2) := UsersRoutes.follow_handler Sample.cuid "alice" "carol" db1 in
  is_success r1 = true ∧ is_success r2 = true ∧
  map (λ f, (Follow.followerId f, Follow.followingId f)) (follows db2)
    = [("alice", "bob"); ("alice", "carol")] ∧
  map (λ u, (User.id u, User.followingCount u, User.followersCount u))
      (users db2)
    = [("alice", 1%Z, 0%Z); ("bob", 0%Z, 1%Z); ("carol", 0%Z, 1%Z)].
Proof. vm_compute. done. Qed.

Lemma follow_delete_users (a b : string) (db db' : Db) (r : bool) :
  FollowService.delete a b db = (inr r, db') → users db' = users db.
Proof.
  unfold FollowService.delete, try_catch, FollowService.prisma_follow_delete,
    mbind, Async_bind.
  destruct (existsb _ (follows db)); by intros [= _ <-].
Qed.

(** Every successful unfollow leaves the follower with
    [followingCount = -1], whatever the counter was. *)
Lemma unfollow_success_assigns_minus_one (a b : string) (db db' : Db)
    (message : option string) (data : UsersRoutes.FollowData) :
  UsersRoutes.unfollow_handler a b db = (Success message data, db') →
  ∀ u, u ∈ users db' → User.id u = a → User.followingCount u = (-1)%Z.
Proof.
  intros H. apply handler_success in H. revert H.
  unfold UsersRoutes.unfollow_handler.
  destruct (truthy b); simpl; [|discriminate].
  intros H. apply bind_inr in H as (target & db0 & _ & H).
  destruct target as [target|]; [|discriminate].
  apply bind_inr in H as (existing & db1 & _ & H).
  destruct existing; [|discriminate].
  apply bind_inr in H as (removed & db2 & Hdelete & H).
  apply follow_delete_users in Hdelete.
  apply bind_inr in H as (units & db3 & Hall & H).
  apply promise_all2_inr in Hall as (db2' & Hup1 & Hup2).
  destruct units as [[] []]. simpl in Hup1, Hup2.
  apply updateCounts_inr in Hup1 as (Husers2' & _).
  apply updateCounts_inr in Hup2 as (Husers3 & _).
  injection H as _ _ <-.
  rewrite Husers3, Husers2'. unfold Prisma.modify.
  intros u Hu Hid. rewrite List.map_map in Hu.
  apply list_elem_of_In, List.in_map_iff in Hu as (w & <- & _).
  revert Hid. unfold UserService.by_id.
  destruct (String.eqb_spec (User.id w) a) as [Hw|Hw]; simpl.
  - rewrite Hw. by destruct (String.eqb_spec a b).
  - by destruct (String.eqb_spec (User.id w) b).
Qed.

(** C4. alice unfollows bob while the edge exists: the edge is removed and
    the answer reports [max(0, 5 - 1) = 4] followers, but the stored
    [followingCount] of alice and [followersCount] of bob are both -1. *)
Theorem unfollow_counters_negative :
  let '(r, db') :=
    UsersRoutes.unfollow_handler "alice" "bob" Sample.alice_follows_bob in
  r = Success (Some "User unfollowed successfully")
              (UsersRoutes.mkFollowData false 4) ∧
  follows db' = [] ∧
  map (λ u, (User.id u, User.followingCount u, User.followersCount u))
      (users db')
    = [("alice", (-1)%Z, 0%Z); ("bob", 0%Z, (-1)%Z)].
Proof. vm_compute. done. Qed.

(** ** Engagement store *)

Lemma remove_no_match {A} (p : A → bool) (l : list A) :
  existsb p l = false → Prisma.remove p l = l.
Proof.
  unfold Prisma.remove. induction l as [|x l IH]; simpl; [done|].
  destruct (p x) eqn:Hp; simpl; [done|]. intros H. by rewrite IH.
Qed.

Lemma existsb_remove {A} (p : A → bool) (l : list A) :
  existsb p (Prisma.remove p l) = false.
Proof.
  unfold Prisma.remove. induction l as [|x l IH]; simpl; [done|].
  destruct (p x) eqn:Hp; simpl; [done|]. by rewrite Hp.
Qed.

Lemma count_remove_other {A} (p q : A → bool) (l : list A) :
  (∀ x, p x = true → q x = false) →
  Prisma.count q (Prisma.remove p l) = Prisma.count q l.
Proof.
  intros Hpq. unfold Prisma.count, Prisma.remove.
  induction l as [|x l IH]; simpl; [done|].
  destruct (p x) eqn:Hp; simpl.
  - by rewrite (Hpq x Hp).
  - destruct (q x); simpl; by rewrite IH.
Qed.

(** C3, as the code has it. When the like edge (U, M) is already stored,
    [like(U, M)] rejects with the unique-constraint error of the database
    and leaves the store, hence the set of like edges, as it was. *)
Theorem like_existing_edge_rejects (cuid : nat → string) (u m : string)
    (db : Db) :
  existsb (LikeService.by_key u m) (likes db) = true →
  LikeService.like cuid u m db = (inl UniqueConstraintError, db).
Proof.
  intros H. unfold LikeService.like, LikeService.create. by rewrite H.
Qed.

Lemma like_existing_edge_rejects_witness :
  existsb (LikeService.by_key "alice" "m1") (likes Sample.small_feed) = true ∧
  LikeService.like Sample.cuid "alice" "m1" Sample.small_feed
    = (inl UniqueConstraintError, Sample.small_feed).
Proof.
  split; [reflexivity|].
  apply (like_existing_edge_rejects Sample.cuid "alice" "m1" Sample.small_feed).
  reflexivity.
Defined.

(** C3, as stated, fails: alice already likes m1, and liking it again does
    not return a row, it raises. *)
Lemma like_existing_edge_not_noop :
  existsb (LikeService.by_key "alice" "m1") (likes Sample.small_feed) = true ∧
  ¬ ∃ row db',
      LikeService.like Sample.cuid "alice" "m1" Sample.small_feed
        = (inr row, db').
Proof.
  split; [reflexivity|]. intros (row & db' & H). vm_compute in H. discriminate H.
Qed.

(** C9. [unlike(U, M)] never rejects.  Without a stored edge it returns
    [false] and hands back the very same store, so the like edges and the
    like count of M are what they were; with a stored edge it returns [true],
    the row is removed, [isUserLiked(U, M)] is false afterwards and the like
    count of every other murmur is kept. *)
Theorem unlike_returns_whether_removed (u m : string) (db : Db) :
  (existsb (LikeService.by_key u m) (likes db) = false →
     LikeService.unlike u m db = (inr false, db)) ∧
  (existsb (LikeService.by_key u m) (likes db) = true →
     let db' := set_likes (Prisma.remove (LikeService.by_key u m)) db in
     LikeService.unlike u m db = (inr true, db') ∧
     LikeService.isUserLiked u m db' = (inr false, db') ∧
     ∀ m', m' ≠ m →
       (LikeService.getLikeCount m' db').1 = (LikeService.getLikeCount m' db).1).
Proof.
  unfold LikeService.unlike, LikeService.delete, try_catch,
    LikeService.prisma_like_delete, mbind, Async_bind.
  split; intros H; rewrite H; simpl; [done|].
  split; [done|]. split.
  - unfold LikeService.isUserLiked, LikeService.findByUserAndMurmur, reads,
      mbind, Async_bind, Prisma.findFirst. simpl.
    pose proof (existsb_remove (LikeService.by_key u m) (likes db)) as Hr.
    apply find_none_existsb in Hr. by rewrite Hr.
  - intros m' Hm'. unfold LikeService.getLikeCount, reads. simpl.
    rewrite count_remove_other; [done|].
    intros l Hl. unfold LikeService.by_key in Hl.
    apply andb_prop in Hl as [_ Hl]. apply String.eqb_eq in Hl.
    apply String.eqb_neq. congruence.
Qed.

Lemma unlike_returns_whether_removed_witness :
  LikeService.unlike "bob" "m1" Sample.small_feed
    = (inr false, Sample.small_feed) ∧
  (LikeService.unlike "alice" "m1" Sample.small_feed).1 = inr true.
Proof.
  destruct (unlike_returns_whether_removed "bob" "m1" Sample.small_feed)
    as [Hno _].
  destruct (unlike_returns_whether_removed "alice" "m1" Sample.small_feed)
    as [_ Hyes].
  split.
  - apply Hno. reflexivity.
  - destruct (Hyes eq_refl) as (Hrun & _). rewrite Hrun. reflexivity.
Defined.

(** ** Notification fan-out *)

Lemma find_filter {A} (p : A → bool) (l : list A) :
  List.find p l = head (List.filter p l).
Proof.
  induction l as [|x l IH]; simpl; [done|]. by destruct (p x).
Qed.

Lemma find_app_none {A} (p : A → bool) (l : list A) (x : A) :
  List.find p l = None → p x = true → List.find p (l ++ [x]) = Some x.
Proof.
  intros Hl Hx. induction l as [|y l IH]; simpl in *; [by rewrite Hx|].
  destruct (p y); [done|]. by apply IH.
Qed.

Lemma matches_has_tuple type R A M n :
  truthy M = true →
  NotificationService.matches type R A (Some M) n = has_tuple type R A M n.
Proof.
  intros HM. unfold NotificationService.matches, has_tuple. simpl.
  by rewrite HM.
Qed.

Lemma find_matches type R A M (l : list Notification.t) :
  truthy M = true →
  List.find (NotificationService.matches type R A (Some M)) l
  = List.find (has_tuple type R A M) l.
Proof.
  intros HM. induction l as [|x l IH]; simpl; [done|].
  by rewrite matches_has_tuple, IH.
Qed.

Section Notify.
Variable cuid : nat → string.

Lemma notify_self type R M db :
  NotificationService.create cuid type R R M db = (inr None, db).
Proof.
  unfold NotificationService.create. by rewrite String.eqb_refl.
Qed.

(** C7. A notification whose recipient is its actor is never stored: the
    call returns [null] and the store is untouched.  For a recipient R
    other than the actor A, both stored users, and a stored murmur M, in a
    store that holds at most one row for (type, R, A, M): two calls in
    succession return the same row, the second call changes nothing, and
    the store then holds exactly that one row for the tuple. *)
Theorem notify_dedup (type : NotificationType) (R A M : string) (db : Db) :
  (∀ M', NotificationService.create cuid type R R M' db = (inr None, db)) ∧
  (R ≠ A →
   truthy M = true →
   user_exists R db = true →
   user_exists A db = true →
   murmur_exists M db = true →
   Prisma.count (has_tuple type R A M) (notifications db) ≤ 1 →
   ∃ n db1,
     NotificationService.create cuid type R A (Some M) db
       = (inr (Some n), db1) ∧
     NotificationService.create cuid type R A (Some M) db1
       = (inr (Some n), db1) ∧
     List.filter (has_tuple type R A M) (notifications db1) = [n]).
Proof.
  split; [intros M'; apply notify_self|].
  intros HRA HM HR HA HMex Hcount.
  apply String.eqb_neq in HRA.
  unfold NotificationService.create. rewrite HRA.
  unfold mbind, Async_bind, reads, Prisma.findFirst.
  rewrite find_matches by done.
  destruct (List.find _ (notifications db)) as [n|] eqn:Hfind.
  - exists n, db. simpl. rewrite find_matches, Hfind by done. simpl.
    split; [done|]. split; [done|].
    rewrite find_filter in Hfind. unfold Prisma.count in Hcount.
    destruct (List.filter _ (notifications db)) as [|x [|y l]];
      simpl in *; [done| |lia]. congruence.
  - unfold NotificationService.prisma_notification_create. simpl.
    rewrite HM. unfold user_exists, murmur_exists in *.
    rewrite HR, HA, HMex. simpl.
    set (row := Notification.mk _ _ _ _ _ _ _).
    assert (Hrow : has_tuple type R A M row = true).
    { unfold has_tuple, row. simpl. rewrite !String.eqb_refl.
      rewrite bool_decide_eq_true_2 by done.
      by destruct type. }
    exists row. eexists. split; [done|]. simpl.
    rewrite find_matches by done.
    rewrite (find_app_none _ _ row Hfind Hrow). simpl. split; [done|].
    rewrite List.filter_app. simpl. rewrite Hrow.
    rewrite find_filter in Hfind.
    by destruct (List.filter _ (notifications db)).
Qed.
End Notify.

Lemma notify_dedup_witness :
  ∃ n db1,
    NotificationService.create Sample.cuid like "bob" "alice" (Some "m1")
      Sample.small_feed = (inr (Some n), db1) ∧
    NotificationService.create Sample.cuid like "bob" "alice" (Some "m1") db1
      = (inr (Some n), db1) ∧
    List.filter (has_tuple like "bob" "alice" "m1") (notifications db1) = [n].
Proof.
  apply (notify_dedup Sample.cuid like "bob" "alice" "m1" Sample.small_feed).
  - discriminate.
  - reflexivity.
  - reflexivity.
  - reflexivity.
  - reflexivity.
  - vm_compute. lia.
Defined.

(** ** Feed assembly *)

Global Instance desc_transitive {A} (key : A → Z) : Transitive (Prisma.desc key).
Proof. unfold Prisma.desc. intros x y z ??. lia. Qed.

Global Instance desc_total {A} (key : A → Z) : Total (Prisma.desc key).
Proof. unfold Prisma.desc. intros x y. lia. Qed.

(** What [findMany] and [count] compute, in terms of one ordered list. *)
Lemma findMany_spec {A} (w : A → bool) (key : A → Z) (limit offset : nat)
    (rows : list A) :
  ∃ all,
    all ≡ₚ List.filter w rows ∧
    StronglySorted (Prisma.desc key) all ∧
    Prisma.findMany w key limit offset rows = page_of limit offset all ∧
    Prisma.count w rows = length all.
Proof.
  exists (merge_sort (Prisma.desc key) (List.filter w rows)).
  split; [apply merge_sort_Permutation|].
  split; [apply StronglySorted_merge_sort; apply _|].
  split; [done|].
  unfold Prisma.count. by rewrite merge_sort_Permutation.
Qed.

Lemma listing_spec (w w' : Murmur.t → bool) (key : Murmur.t → Z)
    (limit offset : nat) (db : Db) :
  (∀ m, w m = w' m) →
  ∃ all,
    all ≡ₚ List.filter w' (murmurs db) ∧
    StronglySorted (Prisma.desc key) all ∧
    MurmurService.listing w key limit offset db
      = (inr (Listing.mk (page_of limit offset all) (length all)),
         db).
Proof.
  intros Hw.
  destruct (findMany_spec w key limit offset (murmurs db))
    as (all & Hperm & Hsorted & Hmany & Hcount).
  exists all. rewrite <- (List.filter_ext _ _ Hw).
  split; [done|]. split; [done|].
  unfold MurmurService.listing, reads. by rewrite Hmany, Hcount.
Qed.

Lemma in_ids_followingIds (userId : string) (db : Db) (m : Murmur.t) :
  MurmurService.in_ids (MurmurService.followingIds userId db) m
  = follows_author userId db m.
Proof.
  unfold MurmurService.in_ids, MurmurService.followingIds, follows_author.
  induction (follows db) as [|f fs IH]; simpl; [done|].
  destruct (String.eqb_spec (Follow.followerId f) userId) as [Hf|Hf]; simpl.
  - destruct (String.eqb_spec (Follow.followingId f) (Murmur.userId m))
      as [Hg|Hg]; simpl.
    + apply bool_decide_eq_true_2. rewrite Hg. left.
    + rewrite <- IH. apply bool_decide_ext. rewrite elem_of_cons.
      split; [intros [H|H]; [congruence|done] | by right].
  - done.
Qed.

Lemma in_ids_push (ids : list string) (userId : string) (m : Murmur.t) :
  MurmurService.in_ids (ids ++ [userId]) m
  = MurmurService.in_ids ids m || String.eqb (Murmur.userId m) userId.
Proof.
  unfold MurmurService.in_ids.
  destruct (String.eqb_spec (Murmur.userId m) userId) as [->|Hne].
  - rewrite orb_true_r. apply bool_decide_eq_true_2.
    apply elem_of_app. right. left.
  - rewrite orb_false_r. apply bool_decide_ext. rewrite elem_of_app.
    split; [|by left]. intros [H|H]; [done|].
    apply elem_of_cons in H as [H|H]; [done|]. by apply elem_of_nil in H.
Qed.

(** [Promise.all] over read-only calls yields one result per element and
    hands back the same store. *)
Lemma promise_all_readonly {A B} (f : A → Async B) (l : list A) (db : Db) :
  (∀ x, ∃ y, f x db = (inr y, db)) →
  ∃ ys, promise_all f l db = (inr ys, db).
Proof.
  intros Hf. unfold promise_all.
  induction l as [|x l [ys IH]]; simpl; [by eexists|].
  destruct (Hf x) as [y Hy].
  unfold mbind, Async_bind at 1. rewrite Hy.
  unfold mbind, Async_bind at 1. rewrite IH. by eexists.
Qed.

Lemma map_murmur_imap (f : nat → Murmur.t → MurmursRoutes.FormattedMurmur)
    (ms : list Murmur.t) :
  (∀ i m, MurmursRoutes.murmur (f i m) = m) →
  map MurmursRoutes.murmur (imap f ms) = ms.
Proof.
  revert f. induction ms as [|m ms IH]; intros f Hf; simpl; [done|].
  rewrite Hf. f_equal. apply IH. intros i m'. apply Hf.
Qed.

Lemma format_murmurs (user : option string) (ms : list Murmur.t) (db : Db) :
  ∃ fs, MurmursRoutes.format user ms db = (inr fs, db) ∧
        map MurmursRoutes.murmur fs = ms.
Proof.
  unfold MurmursRoutes.format.
  destruct (promise_all_readonly
              (λ m, LikeService.getLikeCount (Murmur.id m)) ms db)
    as [counts Hcounts]; [by eexists|].
  unfold mbind, Async_bind at 1. rewrite Hcounts.
  destruct user as [u|].
  - destruct (promise_all_readonly
                (λ m, LikeService.isUserLiked u (Murmur.id m)) ms db)
      as [flags Hflags]; [by eexists|].
    unfold mbind, Async_bind at 1. rewrite Hflags.
    eexists. split; [done|]. by apply map_murmur_imap.
  - eexists. split; [done|]. by apply map_murmur_imap.
Qed.

(** C5, as the code has it. The timeline of U is a page of one list: the
    stored murmurs that are not deleted and whose author U follows, root
    posts and replies alike, newest first; [totalCount] is the length of
    that list, and the route handler answers with exactly that page.  The
    compiled dist variant builds the same from the murmurs whose author U
    follows or is U. *)
Theorem timeline_contents (userId : string) (page limit : nat) (db : Db) :
  let offset := (page - 1) * limit in
  (∃ all,
     all ≡ₚ List.filter (λ m, negb (Murmur.isDeleted m) &&
                              follows_author userId db m) (murmurs db) ∧
     StronglySorted newest_first all ∧
     MurmurService.getTimeline userId limit offset db
       = (inr (Listing.mk (page_of limit offset all)
                                       (length all)), db) ∧
     ∃ feed,
       MurmursRoutes.timeline_handler userId page limit db
         = (Success None feed, db) ∧
       map MurmursRoutes.murmur (MurmursRoutes.murmurs feed)
         = page_of limit offset all ∧
       MurmursRoutes.totalCount (MurmursRoutes.pagination feed) = length all) ∧
  (∃ all,
     all ≡ₚ List.filter (λ m, negb (Murmur.isDeleted m) &&
                              (follows_author userId db m ||
                               String.eqb (Murmur.userId m) userId))
                        (murmurs db) ∧
     StronglySorted newest_first all ∧
     MurmurService.getTimeline_dist userId limit offset db
       = (inr (Listing.mk (page_of limit offset all)
                                       (length all)), db)).
Proof.
  intros offset. split.
  - destruct (listing_spec
      (λ m, MurmurService.in_ids (MurmurService.followingIds userId db) m &&
            negb (Murmur.isDeleted m))
      (λ m, negb (Murmur.isDeleted m) && follows_author userId db m)
      Murmur.createdAt limit offset db) as (all & Hperm & Hsorted & Hrun).
    { intros m. rewrite in_ids_followingIds. apply andb_comm. }
    exists all. split; [done|]. split; [done|].
    split; [exact Hrun|].
    unfold MurmursRoutes.timeline_handler, handler.
    unfold mbind, Async_bind at 1. unfold FollowService.getFollowing at 1.
    unfold reads at 1.
    unfold mbind, Async_bind at 1. fold offset.
    unfold MurmurService.getTimeline in Hrun |- *. rewrite Hrun.
    destruct (format_murmurs (Some userId) (page_of limit offset all) db)
      as (fs & Hfs & Hmap).
    unfold mbind, Async_bind at 1. simpl. rewrite Hfs. simpl.
    eexists. split; [done|]. simpl. done.
  - destruct (listing_spec
      (λ m, MurmurService.in_ids
              (MurmurService.followingIds userId db ++ [userId]) m &&
            negb (Murmur.isDeleted m))
      (λ m, negb (Murmur.isDeleted m) &&
            (follows_author userId db m || String.eqb (Murmur.userId m) userId))
      Murmur.createdAt limit offset db) as (all & Hperm & Hsorted & Hrun).
    { intros m. rewrite in_ids_push, in_ids_followingIds. apply andb_comm. }
    exists all. done.
Qed.

(** C5, as stated, fails: alice follows bob, and her timeline holds bob's
    reply m2, in the source, in the route handler and in the dist variant. *)
Lemma timeline_returns_replies :
  let reply := Sample.post "m2" "bob" (Some "m1") false 20 in
  Murmur.replyToId reply ≠ None ∧
  reply ∈ listed (MurmurService.getTimeline "alice" 10 0 Sample.small_feed) ∧
  reply ∈ answered (MurmursRoutes.timeline_handler "alice" 1 10
                      Sample.small_feed) ∧
  reply ∈ listed (MurmurService.getTimeline_dist "alice" 10 0
                    Sample.small_feed).
Proof.
  split; [discriminate|].
  repeat split; apply (bool_decide_unpack _); vm_compute; exact I.
Qed.

Lemma StronglySorted_page_of {A} (R : relation A) (limit offset : nat)
    (all : list A) :
  StronglySorted R all → StronglySorted R (page_of limit offset all).
Proof.
  intros Hall. unfold page_of.
  rewrite <- (take_drop offset all) in Hall.
  apply StronglySorted_app_1_r in Hall.
  rewrite <- (take_drop limit (drop offset all)) in Hall.
  by apply StronglySorted_app_1_l in Hall.
Qed.

Lemma page_of_subseteq {A} (limit offset : nat) (all : list A) :
  page_of limit offset all ⊆ all.
Proof.
  unfold page_of. etrans; [apply subseteq_take|apply subseteq_drop].
Qed.

(** C6, as the code has it by design.  [getPublicMurmurs(limit, offset)],
    called without an exclusion argument, returns a page of one list: all
    stored murmurs that are not deleted, root posts and replies alike,
    newest first, and [totalCount] is the length of that list; the route
    handler answers an anonymous caller, for whom it has nothing to exclude,
    with exactly that page and count.  For every caller, authenticated or
    not, the handler answers with stored murmurs that are not deleted,
    newest first.  Whether the answer to an authenticated caller holds the
    caller's own posts, and what [totalCount] it then carries, is not part
    of this statement: the route announces the exclusion and passes
    [excludeUserId], which the two-parameter method drops. *)
Theorem public_feed_contents (page limit : nat) (db : Db) :
  let offset := (page - 1) * limit in
  (∃ all,
     all ≡ₚ List.filter (λ m, negb (Murmur.isDeleted m)) (murmurs db) ∧
     StronglySorted newest_first all ∧
     MurmurService.getPublicMurmurs limit offset db
       = (inr (Listing.mk (page_of limit offset all)
                                       (length all)), db) ∧
     ∃ feed,
       MurmursRoutes.public_handler None page limit db
         = (Success None feed, db) ∧
       map MurmursRoutes.murmur (MurmursRoutes.murmurs feed)
         = page_of limit offset all ∧
       MurmursRoutes.totalCount (MurmursRoutes.pagination feed) = length all) ∧
  (∀ user : option string, ∃ feed,
     MurmursRoutes.public_handler user page limit db
       = (Success None feed, db) ∧
     (∀ m, m ∈ map MurmursRoutes.murmur (MurmursRoutes.murmurs feed) →
           m ∈ murmurs db ∧ Murmur.isDeleted m = false) ∧
     StronglySorted newest_first
       (map MurmursRoutes.murmur (MurmursRoutes.murmurs feed))).
Proof.
  intros offset.
  destruct (listing_spec (λ m, negb (Murmur.isDeleted m))
              (λ m, negb (Murmur.isDeleted m))
              Murmur.createdAt limit offset db)
    as (all & Hperm & Hsorted & Hrun); [done|].
  assert (Hanswer : ∀ user, ∃ feed,
            MurmursRoutes.public_handler user page limit db
              = (Success None feed, db) ∧
            map MurmursRoutes.murmur (MurmursRoutes.murmurs feed)
              = page_of limit offset all ∧
            MurmursRoutes.totalCount (MurmursRoutes.pagination feed)
              = length all).
  { intros user.
    unfold MurmursRoutes.public_handler, handler.
    unfold mbind, Async_bind at 1. fold offset.
    unfold MurmurService.getPublicMurmurs in Hrun |- *. rewrite Hrun.
    destruct (format_murmurs user (page_of limit offset all) db)
      as (fs & Hfs & Hmap).
    unfold mbind, Async_bind at 1. simpl. rewrite Hfs. simpl.
    eexists. split; [done|]. simpl. done. }
  split.
  - exists all. split; [done|]. split; [done|]. split; [exact Hrun|].
    apply Hanswer.
  - intros user. destruct (Hanswer user) as (feed & Hfeed & Hpage & _).
    exists feed. split; [exact Hfeed|]. rewrite Hpage. split.
    + intros m Hm. apply page_of_subseteq in Hm. rewrite Hperm in Hm.
      apply list_elem_of_In, List.filter_In in Hm as [Hin Hlive].
      split; [by apply list_elem_of_In|].
      by apply negb_true_iff in Hlive.
    + by apply StronglySorted_page_of.
Qed.

(** C6, as stated, fails: the feed served to alice holds bob's reply m2 and
    alice's own post m4.  The reply is there because no listing of
    [MurmurService] filters on [replyToId]; the own post is there because
    the exclusion the route announces is dropped by the method. *)
Lemma public_feed_returns_replies_and_own :
  let reply := Sample.post "m2" "bob" (Some "m1") false 20 in
  let own := Sample.post "m4" "alice" None false 40 in
  Murmur.replyToId reply ≠ None ∧
  Murmur.userId own = "alice" ∧
  reply ∈ listed (MurmurService.getPublicMurmurs 10 0 Sample.small_feed) ∧
  reply ∈ answered (MurmursRoutes.public_handler (Some "alice") 1 10
                      Sample.small_feed) ∧
  own ∈ answered (MurmursRoutes.public_handler (Some "alice") 1 10
                    Sample.small_feed).
Proof.
  split; [discriminate|]. split; [reflexivity|].
  repeat split; apply (bool_decide_unpack _); vm_compute; exact I.
Qed.

(** ** Soft deletion *)

Lemma filter_without (w : Murmur.t → bool) (m : Murmur.t)
    (rows : list Murmur.t) :
  w m = false →
  List.filter w (List.filter (λ r, negb (bool_decide (r = m))) rows)
  = List.filter w rows.
Proof.
  intros Hm. induction rows as [|x rows IH]; simpl; [done|].
  destruct (decide (x = m)) as [->|Hne].
  - rewrite bool_decide_eq_true_2 by done. simpl. by rewrite Hm.
  - rewrite bool_decide_eq_false_2 by done. simpl. by rewrite IH.
Qed.

Lemma findMany_satisfies {A} (w : A → bool) (key : A → Z)
    (limit offset : nat) (rows : list A) (x : A) :
  x ∈ Prisma.findMany w key limit offset rows → w x = true.
Proof.
  unfold Prisma.findMany. intros Hx.
  apply subseteq_take, subseteq_drop in Hx.
  rewrite merge_sort_Permutation in Hx.
  apply list_elem_of_In, List.filter_In in Hx. tauto.
Qed.

Lemma listing_excludes (w : Murmur.t → bool) (key : Murmur.t → Z)
    (limit offset : nat) (m : Murmur.t) (db : Db) :
  w m = false →
  excludes m (MurmurService.listing w key limit offset) db.
Proof.
  intros Hm. eexists. split; [reflexivity|]. split; simpl.
  - intros Hin. apply findMany_satisfies in Hin. congruence.
  - unfold MurmurService.listing, reads, without, Prisma.findMany,
      Prisma.count. simpl. by rewrite filter_without.
Qed.

Lemma find_all_false {A} (p : A → bool) (l : list A) :
  (∀ x, x ∈ l → p x = false) → List.find p l = None.
Proof.
  induction l as [|x l IH]; intros H; simpl; [done|].
  rewrite (H x) by left. apply IH. intros y Hy. apply H. by right.
Qed.

Lemma unique_id (rows : list Murmur.t) (m r : Murmur.t) :
  NoDup (map Murmur.id rows) → m ∈ rows → r ∈ rows →
  Murmur.id r = Murmur.id m → r = m.
Proof.
  induction rows as [|x rows IH]; simpl; intros Hnd Hm Hr Hid.
  - by apply elem_of_nil in Hm.
  - apply NoDup_cons in Hnd as [Hx Hnd].
    assert (Hmem : ∀ y, y ∈ rows → Murmur.id y ∈ map Murmur.id rows).
    { intros y Hy. apply list_elem_of_In, List.in_map.
      by apply list_elem_of_In. }
    apply elem_of_cons in Hm as [->|Hm]; apply elem_of_cons in Hr as [->|Hr].
    + done.
    + destruct Hx. rewrite <- Hid. by apply Hmem.
    + destruct Hx. rewrite Hid. by apply Hmem.
    + by apply IH.
Qed.

(** C8. A stored murmur with [isDeleted = true] is left out by every
    listing: timeline (source and dist), public feed, user murmurs, search
    and trending return neither the row nor a [totalCount] that counts it.
    With [id] the primary key of the table, [findById] answers [null] for
    it. *)
Theorem deleted_murmur_hidden (contains_insensitive : string → string → bool)
    (m : Murmur.t) (db : Db) (userId query : string) (limit offset : nat) :
  m ∈ murmurs db →
  Murmur.isDeleted m = true →
  excludes m (MurmurService.getTimeline userId limit offset) db ∧
  excludes m (MurmurService.getTimeline_dist userId limit offset) db ∧
  excludes m (MurmurService.getPublicMurmurs limit offset) db ∧
  excludes m (MurmurService.getUserMurmurs userId limit offset) db ∧
  excludes m (MurmurService.search contains_insensitive query limit offset)
           db ∧
  excludes m (MurmurService.getTrending limit offset) db ∧
  (NoDup (map Murmur.id (murmurs db)) →
   MurmurService.findById (Murmur.id m) db = (inr None, db)).
Proof.
  intros Hin Hdel.
  repeat split.
  - apply (listing_excludes
             (λ r, MurmurService.in_ids (MurmurService.followingIds userId db) r
                   && negb (Murmur.isDeleted r))).
    by rewrite Hdel, andb_false_r.
  - apply (listing_excludes
             (λ r, MurmurService.in_ids
                     (MurmurService.followingIds userId db ++ [userId]) r
                   && negb (Murmur.isDeleted r))).
    by rewrite Hdel, andb_false_r.
  - apply listing_excludes. by rewrite Hdel.
  - apply listing_excludes. by rewrite Hdel, andb_false_r.
  - apply listing_excludes. by rewrite Hdel.
  - apply (listing_excludes
             (λ r, negb (Murmur.isDeleted r) &&
                   bool_decide (now db - MurmurService.day_ms
                                ≤ Murmur.createdAt r)%Z)).
    by rewrite Hdel.
  - intros Hnd. unfold MurmurService.findById, reads, Prisma.findFirst.
    rewrite find_all_false; [done|].
    intros r Hr. destruct (String.eqb_spec (Murmur.id r) (Murmur.id m))
      as [Hid|Hid]; [|done].
    rewrite (unique_id (murmurs db) m r Hnd Hin Hr Hid), Hdel. done.
Qed.

Lemma deleted_murmur_hidden_witness :
  let m3 := Sample.post "m3" "bob" None true 30 in
  excludes m3 (MurmurService.getPublicMurmurs 10 0) Sample.small_feed ∧
  MurmurService.findById "m3" Sample.small_feed = (inr None, Sample.small_feed).
Proof.
  intros m3.
  assert (Hin : m3 ∈ murmurs Sample.small_feed).
  { apply (bool_decide_unpack _). vm_compute. exact I. }
  destruct (deleted_murmur_hidden (λ _ _, true) m3 Sample.small_feed
              "alice" "hello" 10 0 Hin eq_refl)
    as (_ & _ & Hpublic & _ & _ & _ & Hfind).
  split; [exact Hpublic|].
  apply Hfind. apply (bool_decide_unpack _). vm_compute. exact I.
Defined.

(** ** Identity store *)

Lemma userWithoutPassword_lacks (user : JsObject) :
  lacks_password (UserService.userWithoutPassword user).
Proof. apply lookup_delete_eq. Qed.

Lemma search_select_lacks (o : JsObject) :
  lacks_password (UserService.select UserService.search_select o).
Proof.
  unfold lacks_password, UserService.select.
  apply map_lookup_filter_None. right. intros v _ Hin. simpl in Hin.
  unfold UserService.search_select in Hin.
  repeat (apply elem_of_cons in Hin as [Hin|Hin]; [discriminate Hin|]).
  by apply elem_of_nil in Hin.
Qed.

Lemma findBy_lacks (w : User.t → bool) (db : Db) :
  resolves_to (from_option lacks_password True) (UserService.findBy w db).
Proof.
  unfold resolves_to, UserService.findBy, reads. simpl.
  destruct (Prisma.findFirst w (users db)); simpl; [|done].
  apply userWithoutPassword_lacks.
Qed.

(** C10. Whatever the stored rows hold, the objects that [create],
    [findById], [findByEmail], [findByUsername], [update] and [search]
    resolve to have no [password] property. *)
Theorem no_password_returned (cuid : nat → string)
    (bcrypt_hash : string → Z → string)
    (contains_insensitive : string → string → bool)
    (db : Db) (userData : UserService.IUserCreate)
    (changes : UserService.IUserUpdate)
    (id email username query : string) (limit offset : nat) :
  resolves_to lacks_password
    (UserService.create cuid bcrypt_hash userData db) ∧
  resolves_to (from_option lacks_password True)
    (UserService.findById id db) ∧
  resolves_to (from_option lacks_password True)
    (UserService.findByEmail email db) ∧
  resolves_to (from_option lacks_password True)
    (UserService.findByUsername username db) ∧
  resolves_to (from_option lacks_password True)
    (UserService.update id changes db) ∧
  resolves_to (Forall lacks_password)
    (UserService.search contains_insensitive query limit offset db).
Proof.
  split.
  { unfold resolves_to, UserService.create.
    destruct (existsb _ (users db)); simpl; [done|].
    apply userWithoutPassword_lacks. }
  split; [apply findBy_lacks|]. split; [apply findBy_lacks|].
  split; [apply findBy_lacks|]. split.
  { unfold resolves_to, UserService.update.
    destruct (Prisma.findFirst _ (users db)); simpl; [|done].
    destruct (existsb _ (users db)); simpl; [done|].
    apply userWithoutPassword_lacks. }
  unfold resolves_to, UserService.search, reads. simpl.
  apply List.Forall_map, Forall_forall. intros u _. apply search_select_lacks.
Qed.

(** The calls do resolve, and the stripped object keeps the other columns:
    bob is found, with his username and without the hash his row stores. *)
Example findById_bob :
  ∃ o, UserService.findById "bob" Sample.small_feed
         = (inr (Some o), Sample.small_feed) ∧
       o !! "username" = Some (JsStr "bob") ∧
       o !! "password" = None ∧
       size o = 13 ∧
       User.to_object (Sample.user "bob" 1 0) !! "password"
         = Some (JsStr "$2a$12$hash").
Proof. eexists. split; [reflexivity|]. vm_compute. done. Qed.

(** * Further properties *)

(** ** Running a computation forwards *)

Lemma bind_run {A B} (m : Async A) (f : A → Async B) (db db1 : Db) (x : A) :
  m db = (inr x, db1) → (m ≫= f) db = f x db1.
Proof. intros H. unfold mbind, Async_bind. by rewrite H. Qed.

Lemma handler_run {D} (body : Async (Response D)) (on_error : string)
    (db db' : Db) (r : Response D) :
  body db = (inr r, db') → handler body on_error db = (r, db').
Proof. intros H. unfold handler. by rewrite H. Qed.

Lemma count_snoc {A} (p : A → bool) (l : list A) (x : A) :
  Prisma.count p (l ++ [x]) = Prisma.count p l + (if p x then 1 else 0).
Proof.
  unfold Prisma.count. rewrite List.filter_app, length_app. simpl.
  by destruct (p x).
Qed.

Lemma count_remove_self {A} (p : A → bool) (l : list A) :
  Prisma.count p (Prisma.remove p l) = 0.
Proof.
  unfold Prisma.count, Prisma.remove. induction l as [|x l IH]; simpl; [done|].
  destruct (p x) eqn:Hp; simpl; [done|]. by rewrite Hp.
Qed.

Lemma remove_snoc {A} (p : A → bool) (l : list A) (x : A) :
  existsb p l = false → p x = true → Prisma.remove p (l ++ [x]) = l.
Proof.
  intros Hl Hx. unfold Prisma.remove. rewrite List.filter_app. simpl.
  rewrite Hx. simpl. rewrite app_nil_r. by apply remove_no_match.
Qed.

Lemma existsb_snoc {A} (p : A → bool) (l : list A) (x : A) :
  existsb p (l ++ [x]) = existsb p l || p x.
Proof. rewrite List.existsb_app. simpl. by rewrite orb_false_r. Qed.

Lemma find_is_some {A} (p : A → bool) (l : list A) :
  existsb p l = true → ∃ x, List.find p l = Some x ∧ p x = true.
Proof.
  induction l as [|y l IH]; simpl; [discriminate|].
  destruct (p y) eqn:Hy; simpl; [eauto|]. done.
Qed.

(** ** Relationship graph, continued *)

Section FollowRoundTrip.
Variable cuid : nat → string.

Lemma follow_create_run (a b : string) (db : Db) :
  a ≠ b →
  user_exists a db = true →
  user_exists b db = true →
  edge_exists a b db = false →
  let row := Follow.mk (cuid (next_cuid db)) a b (now db) in
  FollowService.create cuid a b db
    = (inr row, bump_cuid (set_follows (λ fs, fs ++ [row]) db)).
Proof.
  intros Hab Ha Hb Hedge. unfold FollowService.create.
  apply String.eqb_neq in Hab. rewrite Hab.
  unfold FollowService.prisma_follow_create.
  unfold edge_exists, user_exists in *. by rewrite Hedge, Ha, Hb.
Qed.

Lemma by_key_refl_follow (id a b : string) (t : Z) :
  FollowService.by_key a b (Follow.mk id a b t) = true.
Proof. unfold FollowService.by_key. simpl. by rewrite !String.eqb_refl. Qed.

(** X1. Between two distinct stored users with no edge yet, [create]
    stores the edge and [isFollowing] then answers true; [delete] then
    answers true, [isFollowing] answers false, and the edge table is what it
    was before the follow. *)
Theorem follow_unfollow_round_trip (a b : string) (db : Db) :
  a ≠ b →
  user_exists a db = true →
  user_exists b db = true →
  edge_exists a b db = false →
  ∃ row db1 db2,
    FollowService.create cuid a b db = (inr row, db1) ∧
    FollowService.isFollowing a b db1 = (inr true, db1) ∧
    FollowService.delete a b db1 = (inr true, db2) ∧
    FollowService.isFollowing a b db2 = (inr false, db2) ∧
    follows db2 = follows db.
Proof.
  intros Hab Ha Hb Hedge.
  eexists _, _, _. split; [by apply follow_create_run|].
  assert (Hnew : existsb (FollowService.by_key a b)
                   (follows db ++ [Follow.mk (cuid (next_cuid db)) a b (now db)])
                 = true).
  { by rewrite existsb_snoc, by_key_refl_follow, orb_true_r. }
  split.
  { unfold FollowService.isFollowing, FollowService.findByFollowerAndFollowing,
      reads, mbind, Async_bind, Prisma.findFirst. simpl.
    by destruct (find_is_some _ _ Hnew) as (x & -> & _). }
  unfold FollowService.delete, try_catch, FollowService.prisma_follow_delete,
    mbind, Async_bind. simpl. rewrite Hnew. simpl.
  split; [reflexivity|].
  unfold FollowService.isFollowing, FollowService.findByFollowerAndFollowing,
    reads, mbind, Async_bind, Prisma.findFirst, set_follows, bump_cuid.
  cbn [follows fst snd].
  rewrite remove_snoc; [|exact Hedge|apply by_key_refl_follow].
  split; [|reflexivity].
  apply find_none_existsb in Hedge. unfold edge_exists in Hedge.
  by rewrite Hedge.
Qed.
End FollowRoundTrip.

Lemma follow_unfollow_round_trip_witness :
  ∃ row db1 db2,
    FollowService.create Sample.cuid "alice" "carol" Sample.empty_graph
      = (inr row, db1) ∧
    FollowService.isFollowing "alice" "carol" db1 = (inr true, db1) ∧
    FollowService.delete "alice" "carol" db1 = (inr true, db2) ∧
    FollowService.isFollowing "alice" "carol" db2 = (inr false, db2) ∧
    follows db2 = follows Sample.empty_graph.
Proof.
  apply (follow_unfollow_round_trip Sample.cuid "alice" "carol"
           Sample.empty_graph); [discriminate|reflexivity..].
Defined.

Lemma promise_all2_run {A B} (p : Async A) (q : Async B) (db db1 db2 : Db)
    (x : A) (y : B) :
  p db = (inr x, db1) → q db1 = (inr y, db2) →
  promise_all2 p q db = (inr (x, y), db2).
Proof. intros Hp Hq. unfold promise_all2. by rewrite Hp, Hq. Qed.

Lemma findById_run (id : string) (db : Db) (u : User.t) :
  stored_user id db = Some u →
  UserService.findById id db
    = (inr (Some (UserService.userWithoutPassword (User.to_object u))), db).
Proof.
  intros H. unfold UserService.findById, UserService.findBy, reads.
  unfold stored_user in H. by rewrite H.
Qed.

Lemma user_exists_stored (id : string) (db : Db) :
  user_exists id db = true → ∃ u, stored_user id db = Some u.
Proof.
  intros H. destruct (find_is_some _ _ H) as (u & Hu & _). by exists u.
Qed.

Lemma updateCounts_run (id : string) (c : UserService.Counts) (db : Db) :
  user_exists id db = true →
  UserService.updateCounts id c db
    = (inr tt,
       set_users (Prisma.modify (UserService.by_id id)
                    (UserService.apply_counts c (now db))) db).
Proof.
  intros H. destruct (user_exists_stored id db H) as [u Hu].
  unfold UserService.updateCounts. unfold stored_user in Hu. by rewrite Hu.
Qed.

Lemma existsb_by_id_modify (id : string) (p : User.t → bool)
    (g : User.t → User.t) (l : list User.t) :
  (∀ u, User.id (g u) = User.id u) →
  existsb (UserService.by_id id) (Prisma.modify p g l)
  = existsb (UserService.by_id id) l.
Proof.
  intros Hg. unfold Prisma.modify. induction l as [|u l IH]; simpl; [done|].
  rewrite IH. f_equal. unfold UserService.by_id.
  destruct (p u); [by rewrite Hg|done].
Qed.

Section NotifyRun.
Variable cuid : nat → string.

(** A notification between two distinct stored users is either found or
    created; nothing but the notification table and the id counter moves. *)
Lemma notify_run (type : NotificationType) (R A : string)
    (M : option string) (db : Db) :
  R ≠ A →
  user_exists R db = true →
  user_exists A db = true →
  (∀ m, M = Some m → truthy m = true → murmur_exists m db = true) →
  ∃ n db',
    NotificationService.create cuid type R A M db = (inr (Some n), db') ∧
    users db' = users db ∧ murmurs db' = murmurs db ∧
    follows db' = follows db ∧ likes db' = likes db ∧ now db' = now db ∧
    Notification.userId n = R ∧ Notification.actorId n = A ∧
    Notification.type n = type ∧
    n ∈ notifications db' ∧
    (notifications db' = notifications db ∨
     notifications db' = notifications db ++ [n]) ∧
    NotificationService.matches type R A M n = true.
Proof.
  intros HRA HR HA HM. apply String.eqb_neq in HRA.
  unfold NotificationService.create. rewrite HRA.
  unfold mbind, Async_bind, reads, Prisma.findFirst.
  destruct (List.find _ (notifications db)) as [n|] eqn:Hfind.
  - exists n, db. apply List.find_some in Hfind as [Hin Hn].
    pose proof Hn as Hmatch.
    unfold NotificationService.matches in Hn.
    apply andb_prop in Hn as [Hn _]. apply andb_prop in Hn as [Hn Hact].
    apply andb_prop in Hn as [Htype Hrec].
    apply String.eqb_eq in Hact, Hrec.
    repeat split; try done.
    + by destruct (Notification.type n), type.
    + by apply list_elem_of_In.
    + by left.
  - unfold NotificationService.prisma_notification_create.
    unfold user_exists in HR, HA. rewrite HR, HA. simpl.
    assert (Hfk : match (if truthy_opt M then M else None) with
                  | Some m => existsb (λ r, String.eqb (Murmur.id r) m)
                                      (murmurs db)
                  | None => true
                  end = true).
    { destruct M as [m|]; simpl; [|done].
      destruct (truthy m) eqn:Hm; [|done]. by apply HM. }
    rewrite Hfk. eexists _, _. split; [reflexivity|]. simpl.
    repeat split; try done.
    + apply elem_of_app. right. left.
    + by right.
    + unfold NotificationService.matches. simpl.
      rewrite !String.eqb_refl.
      destruct (truthy_opt M); [|by destruct type].
      rewrite bool_decide_eq_true_2 by done. by destruct type.
Qed.

(** A stored match is handed back and nothing is written. *)
Lemma notify_reuses (type : NotificationType) (R A : string)
    (M : option string) (db : Db) :
  R ≠ A →
  existsb (NotificationService.matches type R A M) (notifications db) = true →
  ∃ n, NotificationService.create cuid type R A M db = (inr (Some n), db).
Proof.
  intros HRA Hex. apply String.eqb_neq in HRA.
  unfold NotificationService.create. rewrite HRA.
  unfold mbind, Async_bind, reads, Prisma.findFirst.
  destruct (find_is_some _ _ Hex) as (n & -> & _). by exists n.
Qed.
End NotifyRun.

Section FollowHandler.
Variable cuid : nat → string.

Lemma follow_handler_run (a b : string) (db : Db) :
  truthy b = true →
  a ≠ b →
  user_exists a db = true →
  user_exists b db = true →
  edge_exists a b db = false →
  ∃ target data db',
    stored_user b db = Some target ∧
    UsersRoutes.follow_handler cuid a b db
      = (Success (Some "User followed successfully") data, db') ∧
    data = UsersRoutes.mkFollowData true (User.followersCount target + 1) ∧
    follows db'
      = follows db ++ [Follow.mk (cuid (next_cuid db)) a b (now db)] ∧
    likes db' = likes db ∧ murmurs db' = murmurs db ∧
    (∀ id, user_exists id db' = user_exists id db) ∧
    (existsb (NotificationService.matches follow b a None) (notifications db)
       = true → notifications db' = notifications db) ∧
    ∃ n, n ∈ notifications db' ∧
         NotificationService.matches follow b a None n = true.
Proof.
  intros Hb Hab Ha Hbx Hedge.
  destruct (user_exists_stored b db Hbx) as [target Htarget].
  pose proof (follow_create_run cuid a b db Hab Ha Hbx Hedge) as Hcreate.
  simpl in Hcreate.
  set (row := Follow.mk (cuid (next_cuid db)) a b (now db)) in *.
  set (db1 := bump_cuid (set_follows (λ fs, fs ++ [row]) db)) in *.
  assert (Ha1 : user_exists a db1 = true) by done.
  pose proof (updateCounts_run a (UserService.mkCounts None (Some 1%Z) None)
                db1 Ha1) as Hup1.
  set (db2 := set_users _ db1) in Hup1.
  assert (Hb2 : user_exists b db2 = true).
  { unfold user_exists, db2. simpl. by rewrite existsb_by_id_modify. }
  assert (Ha2 : user_exists a db2 = true).
  { unfold user_exists, db2. simpl. by rewrite existsb_by_id_modify. }
  pose proof (updateCounts_run b (UserService.mkCounts (Some 1%Z) None None)
                db2 Hb2) as Hup2.
  set (db3 := set_users _ db2) in Hup2.
  assert (Hb3 : user_exists b db3 = true).
  { unfold user_exists, db3. simpl. by rewrite existsb_by_id_modify. }
  assert (Ha3 : user_exists a db3 = true).
  { unfold user_exists, db3. simpl. by rewrite existsb_by_id_modify. }
  destruct (notify_run cuid follow b a None db3) as
    (n & db4 & Hnotify & Hu4 & Hm4 & Hf4 & Hl4 & _ & Hrec & Hact & Htype & Hin & _);
    [congruence|done|done|done|].
  exists target. eexists _, db4. split; [done|]. split.
  - apply handler_run. rewrite Hb. simpl.
    rewrite (bind_run _ _ _ _ _ (findById_run b db target Htarget)).
    unfold FollowService.findByFollowerAndFollowing at 1.
    unfold mbind at 1, Async_bind at 1, reads at 1, Prisma.findFirst at 1.
    apply find_none_existsb in Hedge. unfold edge_exists in Hedge.
    rewrite Hedge.
    rewrite (bind_run _ _ _ _ _ Hcreate).
    rewrite (bind_run _ _ _ _ _ (promise_all2_run _ _ _ _ _ _ _ Hup1 Hup2)).
    rewrite (bind_run _ _ _ _ _ Hnotify).
    reflexivity.
  - split.
    { reflexivity. }
    rewrite Hf4, Hl4, Hm4. repeat split; try done.
    + intros id. unfold user_exists. rewrite Hu4. unfold db3, db2. simpl.
      by rewrite !existsb_by_id_modify.
    + intros Hold.
      destruct (notify_reuses cuid follow b a None db3) as [n' Hn'];
        [congruence|exact Hold|].
      rewrite Hn' in Hnotify. by injection Hnotify as _ <-.
    + exists n. split; [done|].
      unfold NotificationService.matches. simpl.
      rewrite Hrec, Hact, Htype, !String.eqb_refl. done.
Qed.

(** X2. Between two distinct stored users with no edge yet, the follow
    handler answers success, reporting the followee's cached counter plus
    one, and stores exactly one new edge: counted on the edge table,
    [getFollowCounts] gives the follower one more following and the followee
    one more follower, and every other count is what it was. *)
Theorem follow_handler_adds_one_edge (a b : string) (db : Db) :
  truthy b = true →
  a ≠ b →
  user_exists a db = true →
  user_exists b db = true →
  edge_exists a b db = false →
  ∃ data db',
    UsersRoutes.follow_handler cuid a b db
      = (Success (Some "User followed successfully") data, db') ∧
    UsersRoutes.isFollowing data = true ∧
    FollowService.isFollowing a b db' = (inr true, db') ∧
    FollowService.getFollowCounts a db'
      = (inr (followers_count a db, S (following_count a db)), db') ∧
    FollowService.getFollowCounts b db'
      = (inr (S (followers_count b db), following_count b db), db') ∧
    ∀ c, c ≠ a → c ≠ b →
      FollowService.getFollowCounts c db'
        = (inr (followers_count c db, following_count c db), db').
Proof.
  intros Hb Hab Ha Hbx Hedge.
  destruct (follow_handler_run a b db Hb Hab Ha Hbx Hedge)
    as (target & data & db' & _ & Hrun & -> & Hfollows & _).
  exists (UsersRoutes.mkFollowData true (User.followersCount target + 1)), db'.
  split; [exact Hrun|]. split; [done|].
  assert (Hneq : ∀ x y : string, x ≠ y → String.eqb x y = false).
  { intros x y. apply String.eqb_neq. }
  split.
  { unfold FollowService.isFollowing, FollowService.findByFollowerAndFollowing,
      reads, mbind, Async_bind, Prisma.findFirst. rewrite Hfollows.
    assert (Hnew : existsb (FollowService.by_key a b)
              (follows db ++ [Follow.mk (cuid (next_cuid db)) a b (now db)])
            = true).
    { by rewrite existsb_snoc, by_key_refl_follow, orb_true_r. }
    by destruct (find_is_some _ _ Hnew) as (x & -> & _). }
  unfold FollowService.getFollowCounts, reads, followers_count,
    following_count. rewrite Hfollows, !count_snoc. simpl.
  rewrite !String.eqb_refl, (Hneq b a), (Hneq a b) by congruence.
  split; [by rewrite Nat.add_0_r, Nat.add_1_r|].
  split; [by rewrite Nat.add_0_r, Nat.add_1_r|].
  intros c Hca Hcb. rewrite !count_snoc. simpl.
  rewrite (Hneq b c), (Hneq a c) by congruence. by rewrite !Nat.add_0_r.
Qed.
End FollowHandler.

Lemma follow_handler_adds_one_edge_witness :
  ∃ data db',
    UsersRoutes.follow_handler Sample.cuid "alice" "carol" Sample.empty_graph
      = (Success (Some "User followed successfully") data, db') ∧
    FollowService.getFollowCounts "alice" db' = (inr (0, 1), db') ∧
    FollowService.getFollowCounts "carol" db' = (inr (1, 0), db').
Proof.
  destruct (follow_handler_adds_one_edge Sample.cuid "alice" "carol"
              Sample.empty_graph)
    as (data & db' & Hrun & _ & _ & Ha & Hc & _);
    [reflexivity|discriminate|reflexivity..|].
  exists data, db'. split; [exact Hrun|]. split; [exact Ha|exact Hc].
Defined.

Lemma findById_none (id : string) (db : Db) :
  user_exists id db = false →
  UserService.findById id db = (inr None, db).
Proof.
  intros H. apply find_none_existsb in H.
  unfold UserService.findById, UserService.findBy, reads, Prisma.findFirst.
  by rewrite H.
Qed.

Lemma follow_delete_run (a b : string) (db : Db) :
  edge_exists a b db = true →
  FollowService.delete a b db
    = (inr true, set_follows (Prisma.remove (FollowService.by_key a b)) db).
Proof.
  intros H. unfold FollowService.delete, try_catch,
    FollowService.prisma_follow_delete, mbind, Async_bind.
  unfold edge_exists in H. by rewrite H.
Qed.

Lemma unfollow_handler_run (a b : string) (db : Db) :
  truthy b = true →
  user_exists a db = true →
  user_exists b db = true →
  edge_exists a b db = true →
  ∃ target db',
    stored_user b db = Some target ∧
    UsersRoutes.unfollow_handler a b db
      = (Success (Some "User unfollowed successfully")
           (UsersRoutes.mkFollowData false
              (Z.max 0 (User.followersCount target - 1))), db') ∧
    follows db' = Prisma.remove (FollowService.by_key a b) (follows db) ∧
    notifications db' = notifications db ∧
    likes db' = likes db ∧ murmurs db' = murmurs db ∧
    ∀ id, user_exists id db' = user_exists id db.
Proof.
  intros Hb Ha Hbx Hedge.
  destruct (user_exists_stored b db Hbx) as [target Htarget].
  pose proof (follow_delete_run a b db Hedge) as Hdelete.
  set (db1 := set_follows _ db) in Hdelete.
  assert (Ha1 : user_exists a db1 = true) by done.
  pose proof (updateCounts_run a
                (UserService.mkCounts None (Some (-1)%Z) None) db1 Ha1)
    as Hup1.
  set (db2 := set_users _ db1) in Hup1.
  assert (Hb2 : user_exists b db2 = true).
  { unfold user_exists, db2. simpl. by rewrite existsb_by_id_modify. }
  pose proof (updateCounts_run b
                (UserService.mkCounts (Some (-1)%Z) None None) db2 Hb2)
    as Hup2.
  set (db3 := set_users _ db2) in Hup2.
  exists target, db3. split; [done|]. split.
  - apply handler_run. rewrite Hb. simpl.
    rewrite (bind_run _ _ _ _ _ (findById_run b db target Htarget)).
    unfold FollowService.findByFollowerAndFollowing at 1.
    unfold mbind at 1, Async_bind at 1, reads at 1, Prisma.findFirst at 1.
    destruct (find_is_some _ _ Hedge) as (f & -> & _).
    rewrite (bind_run _ _ _ _ _ Hdelete).
    rewrite (bind_run _ _ _ _ _ (promise_all2_run _ _ _ _ _ _ _ Hup1 Hup2)).
    reflexivity.
  - repeat split; try done.
    intros id. unfold user_exists, db3, db2. simpl.
    by rewrite !existsb_by_id_modify.
Qed.

Section FollowRefusals.
Variable cuid : nat → string.

(** X3. The handlers refuse before writing anything.  An unknown target is
    answered 404 by follow and by unfollow; following a user one already
    follows is answered 409; unfollowing a user one does not follow is
    answered 409.  In each case the store handed back is the store given. *)
Theorem follow_handlers_refuse (a b : string) (db : Db) :
  truthy b = true →
  (user_exists b db = false →
     UsersRoutes.follow_handler cuid a b db
       = (Failure 404 "User not found", db) ∧
     UsersRoutes.unfollow_handler a b db
       = (Failure 404 "User not found", db)) ∧
  (user_exists b db = true → edge_exists a b db = true →
     UsersRoutes.follow_handler cuid a b db
       = (Failure 409 "Already following this user", db)) ∧
  (user_exists b db = true → edge_exists a b db = false →
     UsersRoutes.unfollow_handler a b db
       = (Failure 409 "Not following this user", db)).
Proof.
  intros Hb. split; [|split].
  - intros Hmiss. split; apply handler_run; rewrite Hb; simpl;
      by rewrite (bind_run _ _ _ _ _ (findById_none b db Hmiss)).
  - intros Hbx Hedge. destruct (user_exists_stored b db Hbx) as [t Ht].
    apply handler_run. rewrite Hb. simpl.
    rewrite (bind_run _ _ _ _ _ (findById_run b db t Ht)).
    unfold FollowService.findByFollowerAndFollowing, mbind, Async_bind, reads,
      Prisma.findFirst.
    by destruct (find_is_some _ _ Hedge) as (f & -> & _).
  - intros Hbx Hedge. destruct (user_exists_stored b db Hbx) as [t Ht].
    apply handler_run. rewrite Hb. simpl.
    rewrite (bind_run _ _ _ _ _ (findById_run b db t Ht)).
    unfold FollowService.findByFollowerAndFollowing, mbind, Async_bind, reads,
      Prisma.findFirst.
    apply find_none_existsb in Hedge. unfold edge_exists in Hedge.
    by rewrite Hedge.
Qed.

(** X4. Follow, unfollow, follow again, between two distinct stored users
    with no edge at the start: all three calls succeed, the edge is stored
    at the end, and the second follow adds no notification: the table is
    what the first follow left. *)
Theorem refollow_reuses_notification (a b : string) (db : Db) :
  truthy b = true →
  a ≠ b →
  user_exists a db = true →
  user_exists b db = true →
  edge_exists a b db = false →
  ∃ d1 db1 d2 db2 d3 db3,
    UsersRoutes.follow_handler cuid a b db
      = (Success (Some "User followed successfully") d1, db1) ∧
    UsersRoutes.unfollow_handler a b db1
      = (Success (Some "User unfollowed successfully") d2, db2) ∧
    UsersRoutes.follow_handler cuid a b db2
      = (Success (Some "User followed successfully") d3, db3) ∧
    edge_exists a b db3 = true ∧
    notifications db3 = notifications db1 ∧
    ∃ n, n ∈ notifications db3 ∧ Notification.type n = follow ∧
         Notification.userId n = b ∧ Notification.actorId n = a.
Proof.
  intros Hb Hab Ha Hbx Hedge.
  destruct (follow_handler_run cuid a b db Hb Hab Ha Hbx Hedge)
    as (t1 & d1 & db1 & _ & Hrun1 & _ & Hf1 & _ & _ & Hu1 & _ & n & Hn & Hmatch).
  assert (Hedge1 : edge_exists a b db1 = true).
  { unfold edge_exists. rewrite Hf1.
    by rewrite existsb_snoc, by_key_refl_follow, orb_true_r. }
  destruct (unfollow_handler_run a b db1 Hb) as
    (t2 & db2 & _ & Hrun2 & Hf2 & Hn2 & _ & _ & Hu2);
    [by rewrite Hu1|by rewrite Hu1|done|].
  assert (Hedge2 : edge_exists a b db2 = false).
  { unfold edge_exists. rewrite Hf2. apply existsb_remove. }
  destruct (follow_handler_run cuid a b db2 Hb Hab) as
    (t3 & d3 & db3 & _ & Hrun3 & _ & Hf3 & _ & _ & _ & Hkeep & _);
    [by rewrite Hu2, Hu1|by rewrite Hu2, Hu1|done|].
  assert (Hold : existsb (NotificationService.matches follow b a None)
                   (notifications db2) = true).
  { rewrite Hn2. apply List.existsb_exists. exists n.
    split; [by apply list_elem_of_In|done]. }
  eexists d1, db1, _, db2, d3, db3.
  split; [exact Hrun1|]. split; [exact Hrun2|]. split; [exact Hrun3|].
  split.
  { unfold edge_exists. rewrite Hf3.
    by rewrite existsb_snoc, by_key_refl_follow, orb_true_r. }
  rewrite (Hkeep Hold), Hn2. split; [done|].
  exists n. split; [done|].
  unfold NotificationService.matches in Hmatch. simpl in Hmatch.
  rewrite andb_true_r in Hmatch.
  apply andb_prop in Hmatch as [Hmatch Hact].
  apply andb_prop in Hmatch as [Htype Hrec].
  apply String.eqb_eq in Hact, Hrec.
  split; [by destruct (Notification.type n)|done].
Qed.
End FollowRefusals.

Lemma follow_handlers_refuse_witness :
  UsersRoutes.follow_handler Sample.cuid "alice" "dave" Sample.small_feed
    = (Failure 404 "User not found", Sample.small_feed) ∧
  UsersRoutes.follow_handler Sample.cuid "alice" "bob" Sample.small_feed
    = (Failure 409 "Already following this user", Sample.small_feed) ∧
  UsersRoutes.unfollow_handler "bob" "alice" Sample.small_feed
    = (Failure 409 "Not following this user", Sample.small_feed).
Proof.
  split; [|split].
  - apply (follow_handlers_refuse Sample.cuid "alice" "dave" Sample.small_feed);
      reflexivity.
  - apply (follow_handlers_refuse Sample.cuid "alice" "bob" Sample.small_feed);
      reflexivity.
  - apply (follow_handlers_refuse Sample.cuid "bob" "alice" Sample.small_feed);
      reflexivity.
Defined.

Lemma refollow_reuses_notification_witness :
  ∃ d1 db1 d2 db2 d3 db3,
    UsersRoutes.follow_handler Sample.cuid "alice" "carol" Sample.empty_graph
      = (Success (Some "User followed successfully") d1, db1) ∧
    UsersRoutes.unfollow_handler "alice" "carol" db1
      = (Success (Some "User unfollowed successfully") d2, db2) ∧
    UsersRoutes.follow_handler Sample.cuid "alice" "carol" db2
      = (Success (Some "User followed successfully") d3, db3) ∧
    length (notifications db3) = 1.
Proof.
  destruct (refollow_reuses_notification Sample.cuid "alice" "carol"
              Sample.empty_graph)
    as (d1 & db1 & d2 & db2 & d3 & db3 & H1 & H2 & H3 & _ & Hn & _);
    [reflexivity|discriminate|reflexivity..|].
  exists d1, db1, d2, db2, d3, db3.
  split; [exact H1|]. split; [exact H2|]. split; [exact H3|].
  rewrite Hn. vm_compute in H1. injection H1 as _ <-. reflexivity.
Defined.

Lemma elem_of_remove {A} (p : A → bool) (l : list A) (x : A) :
  x ∈ Prisma.remove p l ↔ x ∈ l ∧ p x = false.
Proof.
  unfold Prisma.remove. rewrite !list_elem_of_In, List.filter_In.
  by rewrite negb_true_iff.
Qed.

Lemma count_remove_le_zero {A} (p q : A → bool) (l : list A) :
  Prisma.count p l = 0 → Prisma.count p (Prisma.remove q l) = 0.
Proof.
  unfold Prisma.count, Prisma.remove. induction l as [|x l IH]; simpl; [done|].
  destruct (p x) eqn:Hp; simpl; [discriminate|]. intros H.
  destruct (q x); simpl; [by apply IH|]. rewrite Hp. by apply IH.
Qed.

(** X5. [removeAllFollowsForUser] always resolves; afterwards the user
    follows nobody and is followed by nobody, the edges that remain are
    exactly those that did not touch the user, and no user row has changed,
    so the cached counters of the other endpoints are left as they were. *)
Theorem removeAllFollowsForUser_spec (u : string) (db : Db) :
  ∃ db',
    FollowService.removeAllFollowsForUser u db = (inr tt, db') ∧
    FollowService.getFollowCounts u db' = (inr (0, 0), db') ∧
    (∀ f, f ∈ follows db' ↔
          f ∈ follows db ∧ Follow.followerId f ≠ u ∧ Follow.followingId f ≠ u) ∧
    users db' = users db.
Proof.
  eexists. split; [reflexivity|]. simpl. split; [|split; [|reflexivity]].
  - unfold FollowService.getFollowCounts, reads. simpl.
    rewrite count_remove_self.
    rewrite count_remove_le_zero; [done|]. apply count_remove_self.
  - intros f. rewrite !elem_of_remove, !String.eqb_neq. tauto.
Qed.

(** ** Engagement store, continued *)

Lemma by_key_refl_like (id u m : string) (t : Z) :
  LikeService.by_key u m (Like.mk id u m t) = true.
Proof. unfold LikeService.by_key. simpl. by rewrite !String.eqb_refl. Qed.

Section LikeRoundTrip.
Variable cuid : nat → string.

Lemma like_run (u m : string) (db : Db) :
  user_exists u db = true →
  murmur_exists m db = true →
  like_exists u m db = false →
  let row := Like.mk (cuid (next_cuid db)) u m (now db) in
  LikeService.like cuid u m db
    = (inr row, bump_cuid (set_likes (λ ls, ls ++ [row]) db)).
Proof.
  intros Hu Hm Hno. unfold LikeService.like, LikeService.create.
  unfold user_exists, murmur_exists, like_exists in *.
  by rewrite Hno, Hu, Hm.
Qed.

Lemma isUserLiked_run (u m : string) (db : Db) :
  LikeService.isUserLiked u m db = (inr (like_exists u m db), db).
Proof.
  unfold LikeService.isUserLiked, LikeService.findByUserAndMurmur, reads,
    mbind, Async_bind, Prisma.findFirst, like_exists.
  rewrite find_existsb. by destruct (List.find _ _).
Qed.

Lemma unlike_run (u m : string) (db : Db) :
  like_exists u m db = true →
  LikeService.unlike u m db
    = (inr true, set_likes (Prisma.remove (LikeService.by_key u m)) db).
Proof.
  intros H. unfold LikeService.unlike, LikeService.delete, try_catch,
    LikeService.prisma_like_delete, mbind, Async_bind.
  unfold like_exists in H. by rewrite H.
Qed.

(** X6. For a stored user and a stored murmur with no like edge between
    them, [like] stores the edge: [isUserLiked] then answers true and
    [getLikeCount] is one more than before.  [unlike] then answers true and
    the like table is what it was before, so the count is restored. *)
Theorem like_unlike_round_trip (u m : string) (db : Db) :
  user_exists u db = true →
  murmur_exists m db = true →
  like_exists u m db = false →
  ∃ row db1 db2,
    LikeService.like cuid u m db = (inr row, db1) ∧
    LikeService.isUserLiked u m db1 = (inr true, db1) ∧
    LikeService.getLikeCount m db1 = (inr (S (like_count m db)), db1) ∧
    LikeService.unlike u m db1 = (inr true, db2) ∧
    likes db2 = likes db ∧
    LikeService.getLikeCount m db2 = (inr (like_count m db), db2).
Proof.
  intros Hu Hm Hno.
  pose proof (like_run u m db Hu Hm Hno) as Hlike. simpl in Hlike.
  set (row := Like.mk (cuid (next_cuid db)) u m (now db)) in *.
  set (db1 := bump_cuid _) in Hlike.
  assert (Hyes : like_exists u m db1 = true).
  { unfold like_exists, db1, row. simpl.
    by rewrite existsb_snoc, by_key_refl_like, orb_true_r. }
  assert (Hback : Prisma.remove (LikeService.by_key u m) (likes db1)
                  = likes db).
  { unfold db1, row. simpl.
    apply remove_snoc; [done|apply by_key_refl_like]. }
  exists row, db1, (set_likes (Prisma.remove (LikeService.by_key u m)) db1).
  split; [done|]. split; [by rewrite isUserLiked_run, Hyes|]. split.
  { unfold LikeService.getLikeCount, reads, like_count, db1. simpl.
    rewrite count_snoc. simpl. by rewrite String.eqb_refl, Nat.add_1_r. }
  split; [by apply unlike_run|]. split; [exact Hback|].
  unfold LikeService.getLikeCount, reads, like_count, set_likes.
  cbn [likes]. by rewrite Hback.
Qed.
End LikeRoundTrip.

Lemma like_unlike_round_trip_witness :
  ∃ row db1 db2,
    LikeService.like Sample.cuid "bob" "m4" Sample.small_feed
      = (inr row, db1) ∧
    LikeService.getLikeCount "m4" db1 = (inr 1, db1) ∧
    LikeService.unlike "bob" "m4" db1 = (inr true, db2) ∧
    likes db2 = likes Sample.small_feed.
Proof.
  destruct (like_unlike_round_trip Sample.cuid "bob" "m4" Sample.small_feed)
    as (row & db1 & db2 & H1 & _ & H3 & H4 & H5 & _); [reflexivity..|].
  exists row, db1, db2. split; [exact H1|]. split; [exact H3|].
  split; [exact H4|exact H5].
Defined.

(** X7. [deleteAllByMurmur] always resolves; afterwards the murmur has no
    like left, and the like count of every other murmur is what it was. *)
Theorem deleteAllByMurmur_spec (m : string) (db : Db) :
  ∃ db',
    LikeService.deleteAllByMurmur m db = (inr tt, db') ∧
    LikeService.getLikeCount m db' = (inr 0, db') ∧
    (∀ u, LikeService.isUserLiked u m db' = (inr false, db')) ∧
    ∀ m', m' ≠ m →
      LikeService.getLikeCount m' db' = (inr (like_count m' db), db').
Proof.
  eexists. split; [reflexivity|]. split; [|split].
  - unfold LikeService.getLikeCount, reads. simpl.
    by rewrite count_remove_self.
  - intros u. rewrite isUserLiked_run. f_equal. f_equal.
    unfold like_exists. simpl.
    apply not_true_is_false. intros H.
    apply List.existsb_exists in H as (l & Hl & Hkey).
    apply list_elem_of_In, elem_of_remove in Hl as [_ Hl].
    unfold LikeService.by_key in Hkey. apply andb_prop in Hkey as [_ Hkey].
    congruence.
  - intros m' Hm'. unfold LikeService.getLikeCount, reads, like_count. simpl.
    rewrite count_remove_other; [done|].
    intros l Hl. apply String.eqb_eq in Hl. apply String.eqb_neq. congruence.
Qed.

Lemma murmur_findById_run (id : string) (db : Db) :
  MurmurService.findById id db = (inr (live_murmur id db), db).
Proof. reflexivity. Qed.

Lemma live_murmur_exists (id : string) (db : Db) (post : Murmur.t) :
  live_murmur id db = Some post →
  murmur_exists id db = true ∧ post ∈ murmurs db ∧ Murmur.id post = id ∧
  Murmur.isDeleted post = false.
Proof.
  intros H. apply List.find_some in H as [Hin Hp].
  apply andb_prop in Hp as [Hid Hdel]. apply String.eqb_eq in Hid.
  apply negb_true_iff in Hdel.
  split; [|by rewrite <- list_elem_of_In in Hin].
  apply List.existsb_exists. exists post. split; [done|].
  by apply String.eqb_eq.
Qed.

Section LikeHandler.
Variable cuid : nat → string.

Lemma like_handler_like_run (u m : string) (db : Db) (post : Murmur.t) :
  truthy m = true →
  user_exists u db = true →
  live_murmur m db = Some post →
  user_exists (Murmur.userId post) db = true →
  like_exists u m db = false →
  ∃ db',
    MurmursRoutes.like_handler cuid u m db
      = (Success (Some "Murmur liked")
           (MurmursRoutes.LikeData.mk true (S (like_count m db))), db') ∧
    likes db' = likes db ++ [Like.mk (cuid (next_cuid db)) u m (now db)] ∧
    murmurs db' = murmurs db ∧ users db' = users db ∧
    follows db' = follows db ∧
    (Murmur.userId post = u → notifications db' = notifications db) ∧
    (Murmur.userId post ≠ u →
       ∃ n, n ∈ notifications db' ∧
            NotificationService.matches like (Murmur.userId post) u (Some m) n
              = true).
Proof.
  intros Hm Hu Hlive Hauthor Hno.
  destruct (live_murmur_exists m db post Hlive) as (Hex & _ & _ & _).
  pose proof (like_run cuid u m db Hu Hex Hno) as Hlike. simpl in Hlike.
  set (db1 := bump_cuid _) in Hlike.
  assert (Hcount : ∀ d, likes d = likes db1 →
            LikeService.getLikeCount m d = (inr (S (like_count m db)), d)).
  { intros d Hd. unfold LikeService.getLikeCount, reads, like_count.
    rewrite Hd. unfold db1. simpl. rewrite count_snoc. simpl.
    by rewrite String.eqb_refl, Nat.add_1_r. }
  assert (Hstart : ∀ r db',
    (LikeService.like cuid u m ;;
     NotificationService.create cuid like (Murmur.userId post) u (Some m) ;;
     n ← LikeService.getLikeCount m;
     mret (Success (Some "Murmur liked") (MurmursRoutes.LikeData.mk true n)))
      db = (inr r, db') →
    MurmursRoutes.like_handler cuid u m db = (r, db')).
  { intros r db' Hrest. apply handler_run. rewrite Hm. cbn [negb].
    rewrite (bind_run _ _ _ _ _ (murmur_findById_run m db)), Hlive.
    cbv beta iota.
    rewrite (bind_run _ _ _ _ _ (isUserLiked_run u m db)), Hno.
    exact Hrest. }
  destruct (decide (Murmur.userId post = u)) as [Hself|Hother].
  - exists db1. split.
    + apply Hstart.
      rewrite (bind_run _ _ _ _ _ Hlike), Hself.
      rewrite (bind_run _ _ _ _ _ (notify_self cuid like u (Some m) db1)).
      by rewrite (bind_run _ _ _ _ _ (Hcount db1 eq_refl)).
    + repeat split; try done.
  - destruct (notify_run cuid like (Murmur.userId post) u (Some m) db1)
      as (n & db2 & Hnotify & Hu2 & Hm2 & Hf2 & Hl2 & _ & Hrec & Hact & Htype
          & Hin & Hnew & Hmatch); [done|done|done| |].
    { intros m0 [= <-] _. exact Hex. }
    exists db2. split.
    + apply Hstart.
      rewrite (bind_run _ _ _ _ _ Hlike).
      rewrite (bind_run _ _ _ _ _ Hnotify).
      by rewrite (bind_run _ _ _ _ _ (Hcount db2 Hl2)).
    + rewrite Hl2, Hm2, Hu2, Hf2. repeat split; try done.
      intros _. by exists n.
Qed.

Lemma like_handler_unlike_run (u m : string) (db : Db) (post : Murmur.t) :
  truthy m = true →
  live_murmur m db = Some post →
  like_exists u m db = true →
  let db' := set_likes (Prisma.remove (LikeService.by_key u m)) db in
  MurmursRoutes.like_handler cuid u m db
    = (Success (Some "Murmur unliked")
         (MurmursRoutes.LikeData.mk false (like_count m db')), db').
Proof.
  intros Hm Hlive Hyes db'. apply handler_run. rewrite Hm. cbn [negb].
  rewrite (bind_run _ _ _ _ _ (murmur_findById_run m db)), Hlive.
  cbv beta iota.
  rewrite (bind_run _ _ _ _ _ (isUserLiked_run u m db)), Hyes.
  by rewrite (bind_run _ _ _ _ _ (unlike_run u m db Hyes)).
Qed.

(** X8. Liking a stored, non-deleted murmur that the caller does not like
    yet: the handler answers "Murmur liked" with the like count raised by
    one and stores the edge.  When the murmur is the caller's own, no
    notification is written; otherwise the store then holds a like
    notification for the author about this caller and murmur. *)
Theorem like_handler_likes (u m : string) (db : Db) (post : Murmur.t) :
  truthy m = true →
  user_exists u db = true →
  live_murmur m db = Some post →
  user_exists (Murmur.userId post) db = true →
  like_exists u m db = false →
  ∃ db',
    MurmursRoutes.like_handler cuid u m db
      = (Success (Some "Murmur liked")
           (MurmursRoutes.LikeData.mk true (S (like_count m db))), db') ∧
    LikeService.isUserLiked u m db' = (inr true, db') ∧
    (Murmur.userId post = u → notifications db' = notifications db) ∧
    (Murmur.userId post ≠ u →
       ∃ n, n ∈ notifications db' ∧
            Notification.type n = like ∧
            Notification.userId n = Murmur.userId post ∧
            Notification.actorId n = u ∧
            Notification.murmurId n = Some m).
Proof.
  intros Hm Hu Hlive Hauthor Hno.
  destruct (like_handler_like_run u m db post Hm Hu Hlive Hauthor Hno)
    as (db' & Hrun & Hlikes & _ & _ & _ & Hself & Hother).
  exists db'. split; [exact Hrun|]. split.
  { rewrite isUserLiked_run. do 2 f_equal. unfold like_exists.
    by rewrite Hlikes, existsb_snoc, by_key_refl_like, orb_true_r. }
  split; [exact Hself|]. intros Hne.
  destruct (Hother Hne) as (n & Hin & Hmatch). exists n. split; [done|].
  unfold NotificationService.matches in Hmatch. simpl in Hmatch.
  rewrite Hm in Hmatch.
  apply andb_prop in Hmatch as [Hmatch Hmur].
  apply andb_prop in Hmatch as [Hmatch Hact].
  apply andb_prop in Hmatch as [Htype Hrec].
  apply String.eqb_eq in Hact, Hrec. apply bool_decide_eq_true_1 in Hmur.
  split; [by destruct (Notification.type n)|done].
Qed.

(** X9. Two presses of the like button on a murmur the caller does not
    like yet: the first answers liked with the count raised by one, the
    second answers unliked with the count it was at the start, the like
    table is back to what it was, and the notification table is what the
    first press left: a like notification is not withdrawn by the unlike. *)
Theorem like_handler_twice (u m : string) (db : Db) (post : Murmur.t) :
  truthy m = true →
  user_exists u db = true →
  live_murmur m db = Some post →
  user_exists (Murmur.userId post) db = true →
  like_exists u m db = false →
  ∃ db1 db2,
    MurmursRoutes.like_handler cuid u m db
      = (Success (Some "Murmur liked")
           (MurmursRoutes.LikeData.mk true (S (like_count m db))), db1) ∧
    MurmursRoutes.like_handler cuid u m db1
      = (Success (Some "Murmur unliked")
           (MurmursRoutes.LikeData.mk false (like_count m db)), db2) ∧
    likes db2 = likes db ∧
    notifications db2 = notifications db1.
Proof.
  intros Hm Hu Hlive Hauthor Hno.
  destruct (like_handler_like_run u m db post Hm Hu Hlive Hauthor Hno)
    as (db1 & Hrun & Hlikes & Hmur & _ & _ & _ & _).
  assert (Hlive1 : live_murmur m db1 = Some post).
  { unfold live_murmur. by rewrite Hmur. }
  assert (Hyes : like_exists u m db1 = true).
  { unfold like_exists.
    by rewrite Hlikes, existsb_snoc, by_key_refl_like, orb_true_r. }
  pose proof (like_handler_unlike_run u m db1 post Hm Hlive1 Hyes) as Hrun2.
  cbv zeta in Hrun2.
  assert (Hback : Prisma.remove (LikeService.by_key u m) (likes db1)
                  = likes db).
  { rewrite Hlikes. apply remove_snoc; [done|apply by_key_refl_like]. }
  eexists db1, _. split; [exact Hrun|]. split; [|split].
  - rewrite Hrun2. do 3 f_equal. unfold like_count, set_likes. cbn [likes].
    by rewrite Hback.
  - unfold set_likes. cbn [likes]. exact Hback.
  - reflexivity.
Qed.

(** X10. Pressing like on a murmur id that is not stored, or whose murmur is
    deleted, is answered 404 and writes nothing. *)
Theorem like_handler_missing (u m : string) (db : Db) :
  truthy m = true →
  live_murmur m db = None →
  MurmursRoutes.like_handler cuid u m db
    = (Failure 404 "Murmur not found", db).
Proof.
  intros Hm Hnone. apply handler_run. rewrite Hm. cbn [negb].
  by rewrite (bind_run _ _ _ _ _ (murmur_findById_run m db)), Hnone.
Qed.
End LikeHandler.

Lemma like_handler_likes_witness :
  ∃ db',
    MurmursRoutes.like_handler Sample.cuid "bob" "m4" Sample.small_feed
      = (Success (Some "Murmur liked") (MurmursRoutes.LikeData.mk true 1), db')
    ∧ LikeService.isUserLiked "bob" "m4" db' = (inr true, db').
Proof.
  destruct (like_handler_likes Sample.cuid "bob" "m4" Sample.small_feed
              (Sample.post "m4" "alice" None false 40))
    as (db' & Hrun & Hliked & _); [reflexivity..|].
  exists db'. split; [exact Hrun|exact Hliked].
Defined.

Lemma like_handler_twice_witness :
  ∃ db1 db2,
    MurmursRoutes.like_handler Sample.cuid "bob" "m4" Sample.small_feed
      = (Success (Some "Murmur liked") (MurmursRoutes.LikeData.mk true 1), db1)
    ∧ MurmursRoutes.like_handler Sample.cuid "bob" "m4" db1
      = (Success (Some "Murmur unliked") (MurmursRoutes.LikeData.mk false 0),
         db2)
    ∧ likes db2 = likes Sample.small_feed.
Proof.
  destruct (like_handler_twice Sample.cuid "bob" "m4" Sample.small_feed
              (Sample.post "m4" "alice" None false 40))
    as (db1 & db2 & H1 & H2 & H3 & _); [reflexivity..|].
  exists db1, db2. split; [exact H1|]. split; [exact H2|exact H3].
Defined.

Lemma like_handler_missing_witness :
  MurmursRoutes.like_handler Sample.cuid "alice" "m3" Sample.small_feed
    = (Failure 404 "Murmur not found", Sample.small_feed).
Proof.
  apply (like_handler_missing Sample.cuid "alice" "m3" Sample.small_feed);
    reflexivity.
Defined.

(** ** Notifications, continued *)

Lemma modify_no_match {A} (p : A → bool) (g : A → A) (l : list A) :
  existsb p l = false → Prisma.modify p g l = l.
Proof.
  unfold Prisma.modify. induction l as [|x l IH]; simpl; [done|].
  destruct (p x); simpl; [done|]. intros H. by rewrite IH.
Qed.

Lemma count_zero_existsb {A} (p : A → bool) (l : list A) :
  existsb p l = false → Prisma.count p l = 0.
Proof.
  unfold Prisma.count. induction l as [|x l IH]; simpl; [done|].
  destruct (p x); simpl; [done|]. apply IH.
Qed.

Lemma count_modify {A} (p q : A → bool) (g : A → A) (l : list A) :
  (∀ x, p x = true → q (g x) = q x) →
  Prisma.count q (Prisma.modify p g l) = Prisma.count q l.
Proof.
  intros H. unfold Prisma.count, Prisma.modify.
  induction l as [|x l IH]; simpl; [done|].
  destruct (p x) eqn:Hp; [rewrite (H x Hp)|]; destruct (q x); simpl;
    by rewrite IH.
Qed.

Lemma count_modify_zero {A} (p : A → bool) (g : A → A) (l : list A) :
  (∀ x, p (g x) = false) →
  Prisma.count p (Prisma.modify p g l) = 0.
Proof.
  intros H. unfold Prisma.count, Prisma.modify.
  induction l as [|x l IH]; simpl; [done|].
  destruct (p x) eqn:Hp; [by rewrite H|by rewrite Hp].
Qed.

Lemma elem_of_modify_other {A} (p keep : A → bool) (g : A → A) (l : list A)
    (x : A) :
  (∀ y, p y = true → keep y = false ∧ keep (g y) = false) →
  keep x = true →
  x ∈ Prisma.modify p g l ↔ x ∈ l.
Proof.
  intros Hp Hx. unfold Prisma.modify.
  rewrite !list_elem_of_In, List.in_map_iff. split.
  - intros (y & Hy & Hin). destruct (p y) eqn:Hpy; [|by subst].
    destruct (Hp y Hpy) as [_ Hg]. subst. congruence.
  - intros Hin. exists x. split; [|done].
    destruct (p x) eqn:Hpx; [|done]. destruct (Hp x Hpx). congruence.
Qed.

(** X11. [markAllAsRead] reports how many notifications of the user were
    unread, leaves that user with an unread count of zero, removes no row,
    and changes the unread count of nobody else. *)
Theorem markAllAsRead_spec (u : string) (db : Db) :
  ∃ n db',
    NotificationService.getUnreadCount u db = (inr n, db) ∧
    NotificationService.markAllAsRead u db = (inr n, db') ∧
    NotificationService.getUnreadCount u db' = (inr 0, db') ∧
    map Notification.id (notifications db')
      = map Notification.id (notifications db) ∧
    ∀ v, v ≠ u →
      (NotificationService.getUnreadCount v db').1
        = (NotificationService.getUnreadCount v db).1.
Proof.
  eexists _, _. split; [reflexivity|]. split; [reflexivity|].
  unfold NotificationService.getUnreadCount, reads. simpl.
  split; [|split].
  - rewrite count_modify_zero; [done|]. intros x.
    unfold NotificationService.unread. simpl. apply andb_false_r.
  - unfold Prisma.modify. rewrite List.map_map. apply List.map_ext.
    intros x. by destruct (NotificationService.unread u x).
  - intros v Hv. f_equal. apply count_modify. intros x Hx.
    unfold NotificationService.unread in *. simpl.
    apply andb_prop in Hx as [Hx _]. apply String.eqb_eq in Hx.
    rewrite Hx. apply String.eqb_neq in Hv. rewrite String.eqb_sym in Hv.
    by rewrite Hv.
Qed.

(** X12. [markAsRead], [markAllAsRead] and [delete] are scoped to the
    recipient: a notification addressed to somebody else is in the table
    afterwards exactly when it was there before, unchanged.  When no stored
    notification has both the given id and the given recipient, [markAsRead]
    and [delete] touch zero rows and hand back the same store. *)
Theorem notifications_scoped_to_owner (id u : string) (db : Db) :
  (∀ n, Notification.userId n ≠ u →
     (n ∈ notifications (NotificationService.markAsRead id u db).2 ↔
      n ∈ notifications db) ∧
     (n ∈ notifications (NotificationService.markAllAsRead u db).2 ↔
      n ∈ notifications db) ∧
     (n ∈ notifications (NotificationService.delete id u db).2 ↔
      n ∈ notifications db)) ∧
  (existsb (NotificationService.owned id u) (notifications db) = false →
     NotificationService.markAsRead id u db = (inr 0, db) ∧
     NotificationService.delete id u db = (inr 0, db)).
Proof.
  split.
  - intros n Hn. apply String.eqb_neq in Hn.
    assert (Hkeep : ∀ y, Notification.userId y = u →
              negb (String.eqb (Notification.userId y) u) = false ∧
              negb (String.eqb (Notification.userId
                                  (NotificationService.mark_read y)) u)
              = false).
    { intros y Hy. simpl. apply String.eqb_eq in Hy. by rewrite Hy. }
    split; [|split]; simpl.
    + apply (elem_of_modify_other _
               (λ y, negb (String.eqb (Notification.userId y) u))).
      * intros y Hy. apply Hkeep. unfold NotificationService.owned in Hy.
        apply andb_prop in Hy as [_ Hy]. by apply String.eqb_eq.
      * by rewrite Hn.
    + apply (elem_of_modify_other _
               (λ y, negb (String.eqb (Notification.userId y) u))).
      * intros y Hy. apply Hkeep. unfold NotificationService.unread in Hy.
        apply andb_prop in Hy as [Hy _]. by apply String.eqb_eq.
      * by rewrite Hn.
    + rewrite elem_of_remove. split; [tauto|]. intros Hin. split; [done|].
      unfold NotificationService.owned. rewrite Hn. apply andb_false_r.
  - intros Hnone.
    unfold NotificationService.markAsRead, NotificationService.delete.
    rewrite (count_zero_existsb _ _ Hnone).
    destruct db as [us ms fs ls ns t c]. unfold set_notifications. simpl in *.
    by rewrite modify_no_match, remove_no_match.
Qed.

Lemma notifications_scoped_to_owner_witness :
  NotificationService.markAsRead "n1" "alice" Inbox.db = (inr 0, Inbox.db) ∧
  NotificationService.delete "n1" "alice" Inbox.db = (inr 0, Inbox.db).
Proof.
  apply (notifications_scoped_to_owner "n1" "alice" Inbox.db).
  reflexivity.
Defined.

(** ** Content store *)

Lemma find_modify {A} (p : A → bool) (g : A → A) (l : list A) :
  (∀ x, p (g x) = p x) →
  List.find p (Prisma.modify p g l) = g <$> List.find p l.
Proof.
  intros Hg. unfold Prisma.modify. induction l as [|x l IH]; simpl; [done|].
  destruct (p x) eqn:Hp; [by rewrite Hg, Hp|by rewrite Hp].
Qed.

Lemma find_modify_other {A} (p q : A → bool) (g : A → A) (l : list A) :
  (∀ x, p x = true → q x = false ∧ q (g x) = false) →
  List.find q (Prisma.modify p g l) = List.find q l.
Proof.
  intros H. unfold Prisma.modify. induction l as [|x l IH]; simpl; [done|].
  destruct (p x) eqn:Hp.
  - destruct (H x Hp) as [-> ->]. done.
  - destruct (q x); [done|apply IH].
Qed.

Lemma find_snoc_some {A} (p : A → bool) (l : list A) (x y : A) :
  List.find p l = Some y → List.find p (l ++ [x]) = Some y.
Proof.
  induction l as [|z l IH]; simpl; [discriminate|].
  destruct (p z); [done|apply IH].
Qed.

Lemma murmur_exists_modify (id : string) (p : Murmur.t → bool)
    (g : Murmur.t → Murmur.t) (l : list Murmur.t) :
  (∀ m, Murmur.id (g m) = Murmur.id m) →
  existsb (MurmurService.by_id id) (Prisma.modify p g l)
  = existsb (MurmurService.by_id id) l.
Proof.
  intros Hg. unfold Prisma.modify. induction l as [|m l IH]; simpl; [done|].
  rewrite IH. f_equal. unfold MurmurService.by_id.
  destruct (p m); [by rewrite Hg|done].
Qed.

(** X13. [softDelete] answers false for an id that is not stored and
    hands back the same store.  For a stored id it answers true; the row
    stays in the table, but [findById] no longer finds it, and what
    [findById] answers for any other id is unchanged. *)
Theorem softDelete_spec (id : string) (db : Db) :
  (murmur_exists id db = false →
     MurmurService.softDelete id db = (inr false, db)) ∧
  (murmur_exists id db = true →
     ∃ db',
       MurmurService.softDelete id db = (inr true, db') ∧
       MurmurService.findById id db' = (inr None, db') ∧
       murmur_exists id db' = true ∧
       map Murmur.id (murmurs db') = map Murmur.id (murmurs db) ∧
       ∀ id', id' ≠ id →
         (MurmurService.findById id' db').1 = (MurmurService.findById id' db).1).
Proof.
  unfold MurmurService.softDelete, murmur_exists. split; intros H.
  - change (existsb (MurmurService.by_id id) (murmurs db) = false) in H.
    by rewrite H.
  - change (existsb (MurmurService.by_id id) (murmurs db) = true) in H.
    rewrite H. eexists. split; [reflexivity|].
    assert (Hids : map Murmur.id
              (Prisma.modify (MurmurService.by_id id)
                 (MurmurService.mark_deleted (now db)) (murmurs db))
            = map Murmur.id (murmurs db)).
    { unfold Prisma.modify. rewrite List.map_map. apply List.map_ext.
      intros x. by destruct (MurmurService.by_id id x). }
    split; [|split; [|split]].
    + rewrite murmur_findById_run. do 2 f_equal. unfold live_murmur. simpl.
      apply find_all_false. intros r Hr.
      apply list_elem_of_In, List.in_map_iff in Hr as (x & <- & _).
      destruct (MurmurService.by_id id x) eqn:Hx; simpl;
        [apply andb_false_r|by rewrite Hx].
    + simpl. rewrite <- H. by apply murmur_exists_modify.
    + exact Hids.
    + intros id' Hne. rewrite !murmur_findById_run. simpl. f_equal.
      unfold live_murmur. simpl. apply find_modify_other.
      intros x Hx. unfold MurmurService.by_id in *.
      apply String.eqb_eq in Hx. apply String.eqb_neq in Hne.
      simpl. rewrite Hx. rewrite String.eqb_sym in Hne. by rewrite Hne.
Qed.

Lemma softDelete_spec_witness :
  MurmurService.softDelete "m9" Sample.small_feed
    = (inr false, Sample.small_feed) ∧
  ∃ db', MurmurService.softDelete "m1" Sample.small_feed = (inr true, db') ∧
         MurmurService.findById "m1" db' = (inr None, db').
Proof.
  destruct (softDelete_spec "m9" Sample.small_feed) as [Hno _].
  destruct (softDelete_spec "m1" Sample.small_feed) as [_ Hyes].
  split; [by apply Hno|].
  destruct (Hyes eq_refl) as (db' & Hrun & Hfind & _).
  exists db'. split; [exact Hrun|exact Hfind].
Defined.

Lemma softDelete_run (id : string) (db : Db) :
  murmur_exists id db = true →
  MurmurService.softDelete id db
    = (inr true,
       set_murmurs (Prisma.modify (MurmurService.by_id id)
                      (MurmurService.mark_deleted (now db))) db).
Proof.
  intros H. unfold MurmurService.softDelete.
  change (existsb (MurmurService.by_id id) (murmurs db) = true) in H.
  by rewrite H.
Qed.

Lemma live_after_softDelete (id : string) (db : Db) :
  live_murmur id
    (set_murmurs (Prisma.modify (MurmurService.by_id id)
                    (MurmurService.mark_deleted (now db))) db) = None.
Proof.
  unfold live_murmur. simpl. apply find_all_false. intros r Hr.
  apply list_elem_of_In, List.in_map_iff in Hr as (x & <- & _).
  destruct (MurmurService.by_id id x) eqn:Hx; simpl;
    [apply andb_false_r|by rewrite Hx].
Qed.

(** [adjustRepliesCount] always resolves; it touches nothing but the murmur
    table, keeps every id and every deletion flag, and so keeps what
    [findById] cannot find. *)
Lemma adjustRepliesCount_frame (delta : Z) (p : string) (db : Db) :
  ∃ b db',
    MurmurService.adjustRepliesCount delta p db = (inr b, db') ∧
    users db' = users db ∧ likes db' = likes db ∧
    follows db' = follows db ∧ notifications db' = notifications db ∧
    map Murmur.id (murmurs db') = map Murmur.id (murmurs db) ∧
    ∀ id, live_murmur id db = None → live_murmur id db' = None.
Proof.
  unfold MurmurService.adjustRepliesCount.
  destruct (Prisma.findFirst _ _) as [m|]; [|by exists false, db].
  destruct (MurmurService.int32 _); [|by exists false, db].
  eexists true, _. split; [reflexivity|]. simpl. repeat split; try done.
  - unfold Prisma.modify. rewrite List.map_map. apply List.map_ext.
    intros x. by destruct (MurmurService.by_id p x).
  - intros id Hnone. unfold live_murmur in *. simpl.
    apply find_all_false. intros r Hr.
    apply list_elem_of_In, List.in_map_iff in Hr as (x & <- & Hx).
    pose proof (List.find_none _ _ Hnone x Hx) as Hfalse.
    by destruct (MurmurService.by_id p x).
Qed.

Lemma live_murmur_likes (id : string) (db : Db)
    (f : list Like.t → list Like.t) :
  live_murmur id (set_likes f db) = live_murmur id db.
Proof. reflexivity. Qed.

Lemma delete_handler_gone (u m : string) (db : Db) :
  truthy m = true →
  live_murmur m db = None →
  MurmursRoutes.delete_handler u m db
    = (Failure 404
         "Murmur not found or you do not have permission to delete it", db).
Proof.
  intros Hm Hnone. apply handler_run. rewrite Hm. cbn [negb].
  by rewrite (bind_run _ _ _ _ _ (murmur_findById_run m db)), Hnone.
Qed.

(** X14. The delete handler refuses, with 404 and without writing, when
    the id is not stored, when the murmur is already deleted, and when the
    murmur belongs to somebody else. *)
Theorem delete_handler_refuses (u m : string) (db : Db) :
  truthy m = true →
  (live_murmur m db = None ∨
   ∃ post, live_murmur m db = Some post ∧ Murmur.userId post ≠ u) →
  MurmursRoutes.delete_handler u m db
    = (Failure 404
         "Murmur not found or you do not have permission to delete it", db).
Proof.
  intros Hm H. apply handler_run. rewrite Hm. cbn [negb].
  rewrite (bind_run _ _ _ _ _ (murmur_findById_run m db)).
  destruct H as [->|(post & -> & Hne)]; [done|]. cbv beta iota.
  apply String.eqb_neq in Hne. by rewrite Hne.
Qed.

(** X15. The author deletes a stored, non-deleted murmur: the handler
    answers success; afterwards [findById] no longer finds the murmur, it
    has no like left, no row has left the murmur table, and a second delete
    of the same id is refused with 404. *)
Theorem delete_handler_deletes (u m : string) (db : Db) (post : Murmur.t) :
  truthy m = true →
  live_murmur m db = Some post →
  Murmur.userId post = u →
  user_exists u db = true →
  ∃ db',
    MurmursRoutes.delete_handler u m db
      = (Success (Some "Murmur deleted successfully") tt, db') ∧
    MurmurService.findById m db' = (inr None, db') ∧
    LikeService.getLikeCount m db' = (inr 0, db') ∧
    map Murmur.id (murmurs db') = map Murmur.id (murmurs db) ∧
    MurmursRoutes.delete_handler u m db'
      = (Failure 404
           "Murmur not found or you do not have permission to delete it",
         db').
Proof.
  intros Hm Hlive Howner Hu.
  destruct (live_murmur_exists m db post Hlive) as (Hex & _ & _ & _).
  pose proof (softDelete_run m db Hex) as Hsoft.
  set (db1 := set_murmurs _ db) in Hsoft.
  assert (Hlive1 : live_murmur m db1 = None) by apply live_after_softDelete.
  assert (Hids1 : map Murmur.id (murmurs db1) = map Murmur.id (murmurs db)).
  { unfold db1, Prisma.modify. simpl. rewrite List.map_map.
    apply List.map_ext. intros x. by destruct (MurmurService.by_id m x). }
  assert (Hmid : ∃ db2,
    (if negb (truthy_opt (Murmur.replyToId post))
     then UserService.updateCounts u
            (UserService.mkCounts None None (Some (-1)%Z))
     else MurmurService.decrementRepliesCount
            (default "" (Murmur.replyToId post)) ;; mret tt) db1
      = (inr tt, db2) ∧
    live_murmur m db2 = None ∧
    map Murmur.id (murmurs db2) = map Murmur.id (murmurs db)).
  { destruct (negb (truthy_opt (Murmur.replyToId post))).
    - eexists. split; [by apply updateCounts_run|]. done.
    - destruct (adjustRepliesCount_frame (-1)
                  (default "" (Murmur.replyToId post)) db1)
        as (b & db2 & Hrun & _ & _ & _ & _ & Hids & Hkeep).
      exists db2. split.
      + unfold MurmurService.decrementRepliesCount.
        by rewrite (bind_run _ _ _ _ _ Hrun).
      + split; [by apply Hkeep|]. by rewrite Hids. }
  destruct Hmid as (db2 & Hmid & Hlive2 & Hids2).
  set (db3 := set_likes
                (Prisma.remove (λ l, String.eqb (Like.murmurId l) m)) db2).
  assert (Hlive3 : live_murmur m db3 = None) by done.
  exists db3. split; [|split; [|split; [|split]]].
  - apply handler_run. rewrite Hm. cbn [negb].
    rewrite (bind_run _ _ _ _ _ (murmur_findById_run m db)), Hlive.
    cbv beta iota. rewrite Howner, String.eqb_refl. cbn [negb].
    rewrite (bind_run _ _ _ _ _ Hsoft).
    rewrite (bind_run _ _ _ _ _ Hmid).
    reflexivity.
  - by rewrite murmur_findById_run, Hlive3.
  - unfold LikeService.getLikeCount, reads, db3. simpl.
    by rewrite count_remove_self.
  - exact Hids2.
  - by apply delete_handler_gone.
Qed.

Lemma delete_handler_refuses_witness :
  MurmursRoutes.delete_handler "alice" "m1" Sample.small_feed
    = (Failure 404
         "Murmur not found or you do not have permission to delete it",
       Sample.small_feed) ∧
  MurmursRoutes.delete_handler "bob" "m3" Sample.small_feed
    = (Failure 404
         "Murmur not found or you do not have permission to delete it",
       Sample.small_feed).
Proof.
  split.
  - apply (delete_handler_refuses "alice" "m1" Sample.small_feed);
      [reflexivity|].
    right. exists (Sample.post "m1" "bob" None false 10).
    split; [reflexivity|discriminate].
  - apply (delete_handler_refuses "bob" "m3" Sample.small_feed);
      [reflexivity|]. left. reflexivity.
Defined.

Lemma delete_handler_deletes_witness :
  ∃ db',
    MurmursRoutes.delete_handler "bob" "m1" Sample.small_feed
      = (Success (Some "Murmur deleted successfully") tt, db') ∧
    MurmurService.findById "m1" db' = (inr None, db') ∧
    LikeService.getLikeCount "m1" db' = (inr 0, db').
Proof.
  destruct (delete_handler_deletes "bob" "m1" Sample.small_feed
              (Sample.post "m1" "bob" None false 10))
    as (db' & H1 & H2 & H3 & _); [reflexivity..|].
  exists db'. split; [exact H1|]. split; [exact H2|exact H3].
Defined.

Lemma stored_live (id : string) (db : Db) (m : Murmur.t) :
  stored_murmur id db = Some m → Murmur.isDeleted m = false →
  live_murmur id db = Some m.
Proof.
  unfold stored_murmur, live_murmur, Prisma.findFirst.
  induction (murmurs db) as [|x l IH]; simpl; [discriminate|].
  destruct (MurmurService.by_id id x) eqn:Hx; simpl.
  - intros [= ->] Hdel. by rewrite Hdel.
  - apply IH.
Qed.

Section CreateHandler.
Variable cuid : nat → string.

(** X16. A reply to an id that is not stored, or whose murmur is deleted,
    is answered 404 and nothing is written. *)
Theorem create_reply_missing_parent (u content p : string) (db : Db) :
  truthy p = true →
  live_murmur p db = None →
  MurmursRoutes.create_handler cuid u content (Some p) db
    = (Failure 404 "Parent murmur not found", db).
Proof.
  intros Hp Hnone. apply handler_run. simpl. rewrite Hp.
  unfold mbind at 1, Async_bind at 1.
  rewrite (bind_run _ _ _ _ _ (murmur_findById_run p db)), Hnone.
  reflexivity.
Qed.

(** X17. A stored user replies to a stored, non-deleted murmur whose reply
    counter has room: the handler answers success with the new murmur, zero
    likes and not liked; one row is added to the murmur table; the parent's
    [repliesCount] is one more than before; no user row changes, so the
    author's [murmursCount] is untouched; and unless the parent is the
    replier's own, a reply notification for the parent's author is stored. *)
Theorem create_reply_effects (u content p : string) (db : Db)
    (parent : Murmur.t) :
  truthy p = true →
  user_exists u db = true →
  stored_murmur p db = Some parent →
  Murmur.isDeleted parent = false →
  user_exists (Murmur.userId parent) db = true →
  MurmurService.int32 (Murmur.repliesCount parent + 1) = true →
  ∃ db',
    MurmursRoutes.create_handler cuid u content (Some p) db
      = (Success (Some "Murmur created successfully")
           (MurmursRoutes.mkFormatted
              (Murmur.mk (cuid (next_cuid db)) content u (Some p)
                         0 0 0 false (now db) (now db)) 0 false), db') ∧
    length (murmurs db') = S (length (murmurs db)) ∧
    Murmur.repliesCount <$> stored_murmur p db'
      = Some (Murmur.repliesCount parent + 1)%Z ∧
    users db' = users db ∧
    (Murmur.userId parent ≠ u →
       ∃ n, n ∈ notifications db' ∧
            NotificationService.matches reply (Murmur.userId parent) u
              (Some p) n = true).
Proof.
  intros Hp Hu Hstored Hdel Hauthor Hroom.
  pose proof (stored_live p db parent Hstored Hdel) as Hlive.
  destruct (live_murmur_exists p db parent Hlive) as (Hex & _ & _ & _).
  set (row := Murmur.mk (cuid (next_cuid db)) content u (Some p)
                        0 0 0 false (now db) (now db)).
  set (db1 := bump_cuid (set_murmurs (λ ms, ms ++ [row]) db)).
  assert (Hcreate : MurmurService.create cuid u content (Some p) db
                    = (inr row, db1)).
  { unfold MurmurService.create. simpl. rewrite Hp.
    unfold user_exists in Hu. rewrite Hu.
    change (existsb (MurmurService.by_id p) (murmurs db) = true) in Hex.
    by rewrite Hex. }
  assert (Hstored1 : ∀ d, murmurs d = murmurs db1 →
            stored_murmur p d = Some parent).
  { intros d Hd. unfold stored_murmur, Prisma.findFirst. rewrite Hd.
    unfold db1. simpl. by apply find_snoc_some. }
  assert (Hinc : ∀ d, murmurs d = murmurs db1 →
    ∃ d', MurmurService.incrementRepliesCount p d = (inr true, d') ∧
          users d' = users d ∧ notifications d' = notifications d ∧
          length (murmurs d') = S (length (murmurs db)) ∧
          Murmur.repliesCount <$> stored_murmur p d'
            = Some (Murmur.repliesCount parent + 1)%Z).
  { intros d Hd. unfold MurmurService.incrementRepliesCount,
      MurmurService.adjustRepliesCount.
    pose proof (Hstored1 d Hd) as Hs. unfold stored_murmur in Hs.
    rewrite Hs, Hroom. eexists. split; [reflexivity|].
    unfold set_murmurs. cbn [users notifications murmurs].
    split; [done|]. split; [done|]. split.
    - unfold Prisma.modify. rewrite length_map, Hd. unfold db1. simpl.
      rewrite length_app. simpl. lia.
    - unfold stored_murmur, Prisma.findFirst. cbn [murmurs].
      rewrite find_modify by done.
      unfold Prisma.findFirst in Hs. by rewrite Hs. }
  assert (Hstart : ∀ r db',
    (NotificationService.create cuid reply (Murmur.userId parent) u (Some p) ;;
     MurmurService.incrementRepliesCount p ;; mret tt) db1 = (inr tt, db') →
    r = Success (Some "Murmur created successfully")
          (MurmursRoutes.mkFormatted row 0 false) →
    MurmursRoutes.create_handler cuid u content (Some p) db = (r, db')).
  { intros r db' Hrest ->. apply handler_run.
    assert (Htruthy : truthy_opt (Some p) = true) by exact Hp.
    assert (Hstep1 :
      (if truthy_opt (Some p)
       then parentMurmur ← MurmurService.findById (default "" (Some p));
            mret (bool_decide (parentMurmur = None))
       else mret false) db = (inr false, db)).
    { rewrite Htruthy. cbn [default].
      by rewrite (bind_run _ _ _ _ _ (murmur_findById_run p db)), Hlive. }
    rewrite (bind_run _ _ _ _ _ Hstep1). cbv iota.
    rewrite (bind_run _ _ _ _ _ Hcreate).
    rewrite Htruthy. cbn [negb default].
    assert (Hstep3 : (mret tt : Async unit) db1 = (inr tt, db1)) by done.
    rewrite (bind_run _ _ _ _ _ Hstep3).
    assert (Hstep4 :
      (parentMurmur ← MurmurService.findById p;
       match parentMurmur with
       | Some parent0 =>
         NotificationService.create cuid reply (Murmur.userId parent0) u
                                    (Some p) ;;
         MurmurService.incrementRepliesCount p ;; mret tt
       | None => mret tt
       end) db1 = (inr tt, db')).
    { rewrite (bind_run _ _ _ _ _ (murmur_findById_run p db1)).
      by rewrite (stored_live p db1 parent (Hstored1 db1 eq_refl) Hdel). }
    by rewrite (bind_run _ _ _ _ _ Hstep4). }
  destruct (decide (Murmur.userId parent = u)) as [Hself|Hother].
  - destruct (Hinc db1 eq_refl) as (db' & Hrun & Hu' & _ & Hlen & Hrc).
    exists db'. split.
    { apply Hstart; [|done]. rewrite Hself.
      rewrite (bind_run _ _ _ _ _ (notify_self cuid reply u (Some p) db1)).
      by rewrite (bind_run _ _ _ _ _ Hrun). }
    split; [done|]. split; [done|]. split; [by rewrite Hu'|].
    intros Hne. by destruct Hne.
  - destruct (notify_run cuid reply (Murmur.userId parent) u (Some p) db1)
      as (n & db2 & Hnotify & Hu2 & Hm2 & _ & _ & _ & _ & _ & _ & Hin & _
          & Hmatch); [done|done|done| |].
    { intros m0 [= <-] _. unfold murmur_exists, db1. simpl.
      rewrite existsb_snoc. unfold murmur_exists in Hex. by rewrite Hex. }
    destruct (Hinc db2 Hm2) as (db' & Hrun & Hu' & Hn' & Hlen & Hrc).
    exists db'. split.
    { apply Hstart; [|done].
      rewrite (bind_run _ _ _ _ _ Hnotify).
      by rewrite (bind_run _ _ _ _ _ Hrun). }
    split; [done|]. split; [done|]. split; [by rewrite Hu', Hu2|].
    intros _. exists n. split; [by rewrite Hn'|done].
Qed.
End CreateHandler.

Lemma create_reply_missing_parent_witness :
  MurmursRoutes.create_handler Sample.cuid "alice" "hi" (Some "m3")
    Sample.small_feed
  = (Failure 404 "Parent murmur not found", Sample.small_feed).
Proof.
  apply (create_reply_missing_parent Sample.cuid "alice" "hi" "m3"
           Sample.small_feed); reflexivity.
Defined.

Lemma create_reply_effects_witness :
  ∃ db',
    (MurmursRoutes.create_handler Sample.cuid "alice" "hi" (Some "m1")
       Sample.small_feed).2 = db' ∧
    Murmur.repliesCount <$> stored_murmur "m1" db' = Some 1%Z ∧
    users db' = users Sample.small_feed.
Proof.
  destruct (create_reply_effects Sample.cuid "alice" "hi" "m1"
              Sample.small_feed (Sample.post "m1" "bob" None false 10))
    as (db' & Hrun & _ & Hrc & Husers & _); [reflexivity..|].
  exists db'. split; [by rewrite Hrun|]. split; [exact Hrc|exact Husers].
Defined.

(** ** Pagination *)

Lemma findMany_length {A} (w : A → bool) (key : A → Z) (limit offset : nat)
    (rows : list A) :
  length (Prisma.findMany w key limit offset rows)
  = Nat.min limit (Prisma.count w rows - offset).
Proof.
  unfold Prisma.findMany, Prisma.count.
  by rewrite length_take, length_drop, merge_sort_Permutation.
Qed.

(** X18. For a page number and a limit that passed the validators, the
    page returned by [findMany] holds [min(limit, total - (page-1)*limit)]
    rows; [hasNextPage] is true exactly when the next page is not empty;
    [hasPreviousPage] exactly when the page is not the first; and
    [totalPages] is the least number of pages of that size that hold all
    rows. *)
Theorem pagination_spec {A} (w : A → bool) (key : A → Z) (rows : list A)
    (page limit : nat) :
  1 ≤ page → 1 ≤ limit →
  let total := Prisma.count w rows in
  let p := MurmursRoutes.paginate page limit total in
  length (Prisma.findMany w key limit ((page - 1) * limit) rows)
    = Nat.min limit (total - (page - 1) * limit) ∧
  (MurmursRoutes.hasNextPage p = true ↔
   Prisma.findMany w key limit (page * limit) rows ≠ []) ∧
  (MurmursRoutes.hasPreviousPage p = true ↔ 1 < page) ∧
  total ≤ MurmursRoutes.totalPages p * limit < total + limit.
Proof.
  intros Hpage Hlimit total p. split; [apply findMany_length|].
  split; [|split].
  - unfold p. simpl. rewrite bool_decide_eq_true.
    rewrite <- length_zero_iff_nil, findMany_length. fold total. lia.
  - unfold p. simpl. by rewrite bool_decide_eq_true.
  - unfold p. simpl.
    pose proof (Nat.div_mod (total + limit - 1) limit ltac:(lia)) as Hdiv.
    pose proof (Nat.mod_upper_bound (total + limit - 1) limit ltac:(lia))
      as Hmod.
    nia.
Qed.

Lemma pagination_spec_witness :
  let rows := seq 0 15 in
  length (Prisma.findMany (λ _, true) Z.of_nat 10 ((2 - 1) * 10) rows) = 5 ∧
  MurmursRoutes.hasNextPage (MurmursRoutes.paginate 2 10 15) = false ∧
  MurmursRoutes.hasPreviousPage (MurmursRoutes.paginate 2 10 15) = true ∧
  MurmursRoutes.totalPages (MurmursRoutes.paginate 2 10 15) = 2.
Proof.
  intros rows.
  destruct (pagination_spec (λ _ : nat, true) Z.of_nat rows 2 10)
    as (Hlen & _ & Hprev & _); [lia..|].
  split; [exact Hlen|]. split; [reflexivity|].
  split; [apply Hprev; lia|reflexivity].
Defined.

(** ** Follower lists *)

Lemma select_only_keys (ks : list string) (o : JsObject) :
  only_keys ks (UserService.select ks o).
Proof.
  intros k [v Hk]. unfold UserService.select in Hk.
  apply map_lookup_filter_Some in Hk as [_ Hin]. exact Hin.
Qed.

Lemma Forall_omap {A B} (P : B → Prop) (f : A → option B) (l : list A) :
  (∀ x y, f x = Some y → P y) → Forall P (omap f l).
Proof.
  intros H. apply Forall_forall. intros y Hy.
  apply list_elem_of_omap in Hy as (x & _ & Hx). by apply (H x).
Qed.

Lemma length_omap_le {A B} (f : A → option B) (l : list A) :
  length (omap f l) ≤ length l.
Proof.
  induction l as [|x l IH]; csimpl; [done|]. destruct (f x); csimpl; lia.
Qed.

Lemma findMany_length_le {A} (w : A → bool) (key : A → Z)
    (limit offset : nat) (rows : list A) :
  length (Prisma.findMany w key limit offset rows) ≤ limit.
Proof. rewrite findMany_length. apply Nat.le_min_l. Qed.

Lemma only_keys_absent (ks : list string) (o : JsObject) (k : string) :
  only_keys ks o → k ∉ ks → o !! k = None.
Proof.
  intros Ho Hk. destruct (o !! k) eqn:Hlook; [|done].
  destruct Hk. apply Ho. by rewrite Hlook.
Qed.

(** X19. The follower and following lists always resolve, hold at most
    [limit] users, and report as [totalCount] the number of edges into and
    out of the user, the same numbers [getFollowCounts] gives.  Every
    listed user is reduced to id, username, displayName, avatar and the two
    follow counters; the recent lists to the first four.  Neither carries a
    password or an email. *)
Theorem follow_lists_spec (u : string) (limit offset : nat) (db : Db) :
  ∃ followers following recentFollowers recentFollowing,
    FollowService.getFollowers u limit offset db
      = (inr (followers, followers_count u db), db) ∧
    FollowService.getFollowing u limit offset db
      = (inr (following, following_count u db), db) ∧
    FollowService.getFollowCounts u db
      = (inr (followers_count u db, following_count u db), db) ∧
    FollowService.getRecentFollowers u limit db = (inr recentFollowers, db) ∧
    FollowService.getRecentFollowing u limit db = (inr recentFollowing, db) ∧
    Forall (only_keys FollowService.follow_select) (followers ++ following) ∧
    Forall (only_keys FollowService.recent_select)
           (recentFollowers ++ recentFollowing) ∧
    Forall (λ o : JsObject, o !! "password" = None ∧ o !! "email" = None)
           (followers ++ following ++ recentFollowers ++ recentFollowing) ∧
    Forall (λ l : list JsObject, length l ≤ limit)
           [followers; following; recentFollowers; recentFollowing].
Proof.
  exists
    (omap (λ f, FollowService.joined_user db (Follow.followerId f))
       (Prisma.findMany (λ f, String.eqb (Follow.followingId f) u)
          Follow.createdAt limit offset (follows db))),
    (omap (λ f, FollowService.joined_user db (Follow.followingId f))
       (Prisma.findMany (λ f, String.eqb (Follow.followerId f) u)
          Follow.createdAt limit offset (follows db))),
    (omap (λ f, FollowService.recent_user db (Follow.followerId f))
       (Prisma.findMany (λ f, String.eqb (Follow.followingId f) u)
          Follow.createdAt limit 0 (follows db))),
    (omap (λ f, FollowService.recent_user db (Follow.followingId f))
       (Prisma.findMany (λ f, String.eqb (Follow.followerId f) u)
          Follow.createdAt limit 0 (follows db))).
  split; [reflexivity|]. split; [reflexivity|]. split; [reflexivity|].
  split; [reflexivity|]. split; [reflexivity|].
  assert (Hjoin : ∀ id o, FollowService.joined_user db id = Some o →
            only_keys FollowService.follow_select o).
  { intros id o. unfold FollowService.joined_user.
    destruct (Prisma.findFirst _ _); [|discriminate].
    intros Ho. apply (inj Some) in Ho. rewrite <- Ho.
    apply select_only_keys. }
  assert (Hrecent : ∀ id o, FollowService.recent_user db id = Some o →
            only_keys FollowService.recent_select o).
  { intros id o. unfold FollowService.recent_user.
    destruct (Prisma.findFirst _ _); [|discriminate].
    intros Ho. apply (inj Some) in Ho. rewrite <- Ho.
    apply select_only_keys. }
  assert (Hno1 : ∀ o, only_keys FollowService.follow_select o →
            o !! "password" = None ∧ o !! "email" = None).
  { intros o Ho. split; apply (only_keys_absent _ _ _ Ho);
      apply (bool_decide_unpack _); vm_compute; exact I. }
  assert (Hno2 : ∀ o, only_keys FollowService.recent_select o →
            o !! "password" = None ∧ o !! "email" = None).
  { intros o Ho. split; apply (only_keys_absent _ _ _ Ho);
      apply (bool_decide_unpack _); vm_compute; exact I. }
  assert (H1 : Forall (only_keys FollowService.follow_select)
    (omap (λ f, FollowService.joined_user db (Follow.followerId f))
       (Prisma.findMany (λ f, String.eqb (Follow.followingId f) u)
          Follow.createdAt limit offset (follows db)))).
  { apply Forall_omap. intros f o. apply Hjoin. }
  assert (H2 : Forall (only_keys FollowService.follow_select)
    (omap (λ f, FollowService.joined_user db (Follow.followingId f))
       (Prisma.findMany (λ f, String.eqb (Follow.followerId f) u)
          Follow.createdAt limit offset (follows db)))).
  { apply Forall_omap. intros f o. apply Hjoin. }
  assert (H3 : Forall (only_keys FollowService.recent_select)
    (omap (λ f, FollowService.recent_user db (Follow.followerId f))
       (Prisma.findMany (λ f, String.eqb (Follow.followingId f) u)
          Follow.createdAt limit 0 (follows db)))).
  { apply Forall_omap. intros f o. apply Hrecent. }
  assert (H4 : Forall (only_keys FollowService.recent_select)
    (omap (λ f, FollowService.recent_user db (Follow.followingId f))
       (Prisma.findMany (λ f, String.eqb (Follow.followerId f) u)
          Follow.createdAt limit 0 (follows db)))).
  { apply Forall_omap. intros f o. apply Hrecent. }
  split; [by apply Forall_app|]. split; [by apply Forall_app|].
  split.
  - rewrite !Forall_app. repeat split.
    + eapply Forall_impl; [exact H1|exact Hno1].
    + eapply Forall_impl; [exact H2|exact Hno1].
    + eapply Forall_impl; [exact H3|exact Hno2].
    + eapply Forall_impl; [exact H4|exact Hno2].
  - repeat constructor;
      (etrans; [apply length_omap_le|apply findMany_length_le]).
Qed.

(** ** Liked murmurs *)

Lemma murmur_of_id (db : Db) (l : Like.t) (m : Murmur.t) :
  LikeService.murmur_of db l = Some m → Murmur.id m = Like.murmurId l.
Proof.
  unfold LikeService.murmur_of, Prisma.findFirst. intros H.
  apply List.find_some in H as [_ H]. by apply String.eqb_eq.
Qed.

Lemma findMany_in {A} (w : A → bool) (key : A → Z) (limit offset : nat)
    (rows : list A) (x : A) :
  x ∈ Prisma.findMany w key limit offset rows → x ∈ rows.
Proof.
  unfold Prisma.findMany. intros Hx.
  apply subseteq_take, subseteq_drop in Hx.
  rewrite merge_sort_Permutation in Hx.
  apply list_elem_of_In, List.filter_In in Hx as [Hx _].
  by apply list_elem_of_In.
Qed.

(** X20. For a stored user, the liked-murmurs handler answers success with
    at most [limit] murmurs, each a root post that is not deleted and that
    the user likes; the [totalCount] of the answer is the number of murmurs
    on this page. *)
Theorem liked_handler_lists (currentUserId u : string) (page limit : nat)
    (db : Db) :
  truthy u = true →
  user_exists u db = true →
  ∃ feed,
    MurmursRoutes.liked_handler currentUserId u page limit db
      = (Success None feed, db) ∧
    Forall (λ m, Murmur.replyToId m = None ∧ Murmur.isDeleted m = false ∧
                 like_exists u (Murmur.id m) db = true)
           (map MurmursRoutes.murmur (MurmursRoutes.murmurs feed)) ∧
    length (MurmursRoutes.murmurs feed) ≤ limit ∧
    MurmursRoutes.totalCount (MurmursRoutes.pagination feed)
      = length (MurmursRoutes.murmurs feed).
Proof.
  intros Hu Hex. destruct (user_exists_stored u db Hex) as [target Htarget].
  set (offset := (page - 1) * limit).
  set (found := Prisma.findMany (LikeService.likesByUser_where db u)
                  Like.createdAt limit offset (likes db)).
  set (ms := omap (λ lm : Like.t * option Murmur.t,
                     match lm.2 with
                     | Some m => if Murmur.isDeleted m then None else Some m
                     | None => None
                     end)
                  (map (λ l, (l, LikeService.murmur_of db l)) found)).
  destruct (format_murmurs (Some currentUserId) ms db) as (fs & Hfs & Hmap).
  eexists. split; [|split; [|split]].
  - apply handler_run. rewrite Hu. cbn [negb].
    rewrite (bind_run _ _ _ _ _ (findById_run u db target Htarget)).
    cbv beta iota.
    unfold LikeService.getLikesByUser at 1.
    unfold mbind at 1, Async_bind at 1, reads at 1. cbn [fst snd].
    fold offset. fold found. fold ms.
    by rewrite (bind_run _ _ _ _ _ Hfs).
  - cbn [MurmursRoutes.murmurs]. rewrite Hmap. unfold ms.
    apply Forall_forall. intros m Hin.
    apply list_elem_of_omap in Hin as ([l om] & Hl & Hm). cbn [snd] in Hm.
    apply list_elem_of_In, List.in_map_iff in Hl as (l' & [= <- <-] & Hl').
    apply list_elem_of_In in Hl'.
    pose proof (findMany_satisfies _ _ _ _ _ _ Hl') as Hw.
    pose proof (findMany_in _ _ _ _ _ _ Hl') as Hstored.
    unfold LikeService.likesByUser_where in Hw.
    apply andb_prop in Hw as [Huser Hw]. apply String.eqb_eq in Huser.
    destruct (LikeService.murmur_of db l') as [m'|] eqn:Hof; [|discriminate].
    apply andb_prop in Hw as [Hroot Hlive].
    apply bool_decide_eq_true_1 in Hroot. apply negb_true_iff in Hlive.
    rewrite Hlive in Hm. injection Hm as <-.
    split; [done|]. split; [done|].
    apply List.existsb_exists. exists l'.
    split; [by apply list_elem_of_In|].
    unfold LikeService.by_key.
    rewrite Huser, (murmur_of_id db l' m' Hof), !String.eqb_refl. done.
  - cbn [MurmursRoutes.murmurs].
    rewrite <- (length_map MurmursRoutes.murmur), Hmap. unfold ms.
    etrans; [apply length_omap_le|]. rewrite length_map.
    apply findMany_length_le.
  - cbn [MurmursRoutes.pagination MurmursRoutes.totalCount
         MurmursRoutes.murmurs].
    by rewrite <- (length_map MurmursRoutes.murmur fs), Hmap.
Qed.

Lemma liked_handler_lists_witness :
  ∃ feed,
    MurmursRoutes.liked_handler "bob" "alice" 1 10 Sample.small_feed
      = (Success None feed, Sample.small_feed) ∧
    length (MurmursRoutes.murmurs feed) ≤ 10.
Proof.
  destruct (liked_handler_lists "bob" "alice" 1 10 Sample.small_feed)
    as (feed & Hrun & _ & Hlen & _); [reflexivity..|].
  exists feed. split; [exact Hrun|exact Hlen].
Defined.

(** ** Bulk soft deletion and the reply counter *)

Lemma filter_modify_other {A} (p q : A → bool) (g : A → A) (l : list A) :
  (∀ x, p x = true → q x = false ∧ q (g x) = false) →
  List.filter q (Prisma.modify p g l) = List.filter q l.
Proof.
  intros H. unfold Prisma.modify. induction l as [|x l IH]; simpl; [done|].
  destruct (p x) eqn:Hp.
  - destruct (H x Hp) as [-> ->]. exact IH.
  - by rewrite IH.
Qed.

Lemma filter_modify_none {A} (p q : A → bool) (g : A → A) (l : list A) :
  (∀ x, p x = true → q (g x) = false) →
  (∀ x, p x = false → q x = false) →
  List.filter q (Prisma.modify p g l) = [].
Proof.
  intros Hyes Hno. unfold Prisma.modify.
  induction l as [|x l IH]; simpl; [done|].
  destruct (p x) eqn:Hp; [by rewrite (Hyes x Hp)|by rewrite (Hno x Hp)].
Qed.

(** X21. [removeAllMurmursForUser] always resolves and removes no row;
    afterwards the user's murmur listing is empty with [totalCount] 0, and
    the listing of every other user is what it was. *)
Theorem removeAllMurmursForUser_spec (u : string) (limit offset : nat)
    (db : Db) :
  ∃ db',
    MurmurService.removeAllMurmursForUser u db = (inr tt, db') ∧
    map Murmur.id (murmurs db') = map Murmur.id (murmurs db) ∧
    MurmurService.getUserMurmurs u limit offset db'
      = (inr (Listing.mk [] 0), db') ∧
    ∀ v, v ≠ u →
      (MurmurService.getUserMurmurs v limit offset db').1
        = (MurmurService.getUserMurmurs v limit offset db).1.
Proof.
  eexists. split; [reflexivity|]. split; [|split].
  - simpl. unfold Prisma.modify. rewrite List.map_map. apply List.map_ext.
    intros x. by destruct (String.eqb (Murmur.userId x) u).
  - unfold MurmurService.getUserMurmurs, MurmurService.listing, reads,
      Prisma.findMany, Prisma.count. cbn [murmurs set_murmurs fst snd].
    rewrite filter_modify_none.
    + change (merge_sort (Prisma.desc Murmur.createdAt) [])
        with (@nil Murmur.t).
      by rewrite drop_nil, take_nil.
    + intros x Hx. simpl. apply andb_false_r.
    + intros x Hx. by rewrite Hx.
  - intros v Hv. unfold MurmurService.getUserMurmurs, MurmurService.listing,
      reads, Prisma.findMany, Prisma.count. cbn [murmurs set_murmurs fst snd].
    rewrite filter_modify_other; [done|].
    intros x Hx. apply String.eqb_eq in Hx. simpl. rewrite Hx.
    apply String.eqb_neq in Hv. rewrite String.eqb_sym in Hv.
    by rewrite Hv.
Qed.

(** X22. The reply counter.  [incrementRepliesCount] and
    [decrementRepliesCount] answer false for an id that is not stored, and
    false when the counter already sits at the edge of the column's range;
    in both cases the store is handed back as it was.  Otherwise the
    increment answers true and adds exactly one, and a decrement after it
    answers true and brings the counter back. *)
Theorem replies_counter_spec (p : string) (db : Db) :
  (stored_murmur p db = None →
     MurmurService.incrementRepliesCount p db = (inr false, db) ∧
     MurmurService.decrementRepliesCount p db = (inr false, db)) ∧
  (∀ parent, stored_murmur p db = Some parent →
     (Murmur.repliesCount parent = 2147483647%Z →
        MurmurService.incrementRepliesCount p db = (inr false, db)) ∧
     (Murmur.repliesCount parent = (-2147483648)%Z →
        MurmurService.decrementRepliesCount p db = (inr false, db)) ∧
     (MurmurService.int32 (Murmur.repliesCount parent) = true →
      Murmur.repliesCount parent ≠ 2147483647%Z →
      ∃ db1 db2,
        MurmurService.incrementRepliesCount p db = (inr true, db1) ∧
        Murmur.repliesCount <$> stored_murmur p db1
          = Some (Murmur.repliesCount parent + 1)%Z ∧
        MurmurService.decrementRepliesCount p db1 = (inr true, db2) ∧
        Murmur.repliesCount <$> stored_murmur p db2
          = Some (Murmur.repliesCount parent))).
Proof.
  unfold MurmurService.incrementRepliesCount,
    MurmurService.decrementRepliesCount, MurmurService.adjustRepliesCount,
    stored_murmur.
  split.
  - intros ->. done.
  - intros parent Hfind. unfold Prisma.findFirst in *.
    rewrite Hfind. split; [|split].
    + intros ->. done.
    + intros ->. done.
    + intros Hrange Hmax. unfold MurmurService.int32 in *.
      apply bool_decide_eq_true_1 in Hrange.
      rewrite (bool_decide_eq_true_2
                 (-2147483648 ≤ Murmur.repliesCount parent + 1 ≤ 2147483647)%Z)
        by lia.
      eexists _, _. split; [reflexivity|]. cbn [murmurs set_murmurs].
      rewrite find_modify by done.
      rewrite Hfind. cbn [fmap option_fmap option_map
                          MurmurService.with_repliesCount Murmur.repliesCount].
      split; [done|].
      rewrite (bool_decide_eq_true_2
                 (-2147483648 ≤ Murmur.repliesCount parent + 1 + -1
                  ≤ 2147483647)%Z) by lia.
      split; [reflexivity|]. cbn [murmurs set_murmurs].
      rewrite !find_modify by done. rewrite Hfind.
      cbn [fmap option_fmap option_map
           MurmurService.with_repliesCount Murmur.repliesCount].
      f_equal. lia.
Qed.

Lemma replies_counter_spec_witness :
  MurmurService.incrementRepliesCount "m9" Sample.small_feed
    = (inr false, Sample.small_feed) ∧
  ∃ db1 db2,
    MurmurService.incrementRepliesCount "m1" Sample.small_feed
      = (inr true, db1) ∧
    Murmur.repliesCount <$> stored_murmur "m1" db1 = Some 1%Z ∧
    MurmurService.decrementRepliesCount "m1" db1 = (inr true, db2) ∧
    Murmur.repliesCount <$> stored_murmur "m1" db2 = Some 0%Z.
Proof.
  destruct (replies_counter_spec "m9" Sample.small_feed) as [Hmiss _].
  destruct (replies_counter_spec "m1" Sample.small_feed) as [_ Hfound].
  split; [by apply Hmiss|].
  destruct (Hfound (Sample.post "m1" "bob" None false 10) eq_refl)
    as (_ & _ & Hround).
  apply Hround; [reflexivity|discriminate].
Defined.

(** ** Root posts and the timeline *)

Section CreateRoot.
Variable cuid : nat → string.

(** X23. A stored user posts a root murmur (no [replyToId], or an empty
    one): the handler answers success with the new murmur, appends exactly
    that row, with no parent, to the murmur table and writes no
    notification.  The author's cached [murmursCount] is assigned 1 by
    [updateCounts], whatever it was before. *)
Theorem create_root_effects (u content : string) (replyToId : option string)
    (db : Db) :
  truthy_opt replyToId = false →
  user_exists u db = true →
  let row := Murmur.mk (cuid (next_cuid db)) content u None
                       0 0 0 false (now db) (now db) in
  ∃ db',
    MurmursRoutes.create_handler cuid u content replyToId db
      = (Success (Some "Murmur created successfully")
           (MurmursRoutes.mkFormatted row 0 false), db') ∧
    murmurs db' = murmurs db ++ [row] ∧
    notifications db' = notifications db ∧
    ∀ x, x ∈ users db' → User.id x = u → User.murmursCount x = 1%Z.
Proof.
  intros Hroot Hu row.
  set (db1 := bump_cuid (set_murmurs (λ ms, ms ++ [row]) db)).
  assert (Hcreate : MurmurService.create cuid u content replyToId db
                    = (inr row, db1)).
  { unfold MurmurService.create. rewrite Hroot.
    unfold user_exists in Hu. by rewrite Hu. }
  assert (Hu1 : user_exists u db1 = true) by done.
  pose proof (updateCounts_run u (UserService.mkCounts None None (Some 1%Z))
                db1 Hu1) as Hup.
  set (db2 := set_users _ db1) in Hup.
  exists db2. split; [|split; [done|split; [done|]]].
  - apply handler_run.
    assert (Hstep1 :
      (if truthy_opt replyToId
       then parentMurmur ← MurmurService.findById (default "" replyToId);
            mret (bool_decide (parentMurmur = None))
       else mret false) db = (inr false, db)) by by rewrite Hroot.
    rewrite (bind_run _ _ _ _ _ Hstep1). cbv iota.
    rewrite (bind_run _ _ _ _ _ Hcreate).
    rewrite Hroot. cbn [negb].
    rewrite (bind_run _ _ _ _ _ Hup).
    reflexivity.
  - intros x Hx Hid. unfold db2 in Hx. cbn [users set_users] in Hx.
    unfold Prisma.modify in Hx.
    apply list_elem_of_In, List.in_map_iff in Hx as (w & <- & _).
    revert Hid. unfold UserService.by_id.
    destruct (String.eqb_spec (User.id w) u) as [Hw|Hw]; [done|].
    intros Hid. by destruct Hw.
Qed.
End CreateRoot.

Lemma create_root_effects_witness :
  ∃ db',
    (MurmursRoutes.create_handler Sample.cuid "bob" "again" None
       Sample.small_feed).2 = db' ∧
    length (murmurs db') = 5 ∧
    map User.murmursCount (users db') = [0%Z; 1%Z].
Proof.
  destruct (create_root_effects Sample.cuid "bob" "again" None
              Sample.small_feed)
    as (db' & Hrun & Hm & _); [reflexivity..|].
  exists db'. split; [by rewrite Hrun|]. split; [by rewrite Hm|].
  vm_compute in Hrun. by injection Hrun as <-.
Defined.

Lemma findMany_all {A} (w : A → bool) (key : A → Z) (limit : nat)
    (rows : list A) (x : A) :
  length rows ≤ limit →
  x ∈ Prisma.findMany w key limit 0 rows ↔ x ∈ rows ∧ w x = true.
Proof.
  intros Hlen. unfold Prisma.findMany. rewrite drop_0, take_ge.
  - rewrite merge_sort_Permutation, list_elem_of_In, List.filter_In.
    by rewrite list_elem_of_In.
  - rewrite merge_sort_Permutation.
    etrans; [apply List.filter_length_le|done].
Qed.

Section FollowTimeline.
Variable cuid : nat → string.

(** X24. Following puts the followee on the timeline.  Between two
    distinct stored users with no edge yet, a stored murmur of the followee
    that is not deleted is absent from the follower's timeline before the
    follow and present after it (read with a limit that covers the whole
    table). *)
Theorem follow_then_timeline (a b : string) (db : Db) (m : Murmur.t)
    (limit : nat) :
  truthy b = true →
  a ≠ b →
  user_exists a db = true →
  user_exists b db = true →
  edge_exists a b db = false →
  m ∈ murmurs db →
  Murmur.userId m = b →
  Murmur.isDeleted m = false →
  length (murmurs db) ≤ limit →
  ∃ data db',
    UsersRoutes.follow_handler cuid a b db
      = (Success (Some "User followed successfully") data, db') ∧
    (m ∉ listed (MurmurService.getTimeline a limit 0 db)) ∧
    m ∈ listed (MurmurService.getTimeline a limit 0 db').
Proof.
  intros Hb Hab Ha Hbx Hedge Hin Hauthor Hlive Hlen.
  destruct (follow_handler_run cuid a b db Hb Hab Ha Hbx Hedge)
    as (target & data & db' & _ & Hrun & _ & Hfollows & _ & Hmurmurs & _).
  exists data, db'. split; [exact Hrun|].
  unfold listed, MurmurService.getTimeline, MurmurService.listing, reads.
  cbn [fst snd Listing.murmurs]. split.
  - rewrite findMany_all by done. intros [_ Hw].
    apply andb_prop in Hw as [Hw _]. rewrite in_ids_followingIds in Hw.
    unfold follows_author in Hw.
    apply List.existsb_exists in Hw as (f & Hf & Hkey).
    assert (Hyes : edge_exists a b db = true); [|congruence].
    apply List.existsb_exists. exists f. split; [done|].
    unfold FollowService.by_key. by rewrite <- Hauthor.
  - rewrite findMany_all by by rewrite Hmurmurs.
    rewrite Hmurmurs. split; [done|].
    rewrite in_ids_followingIds, Hlive. cbn [negb]. rewrite andb_true_r.
    unfold follows_author. rewrite Hfollows, existsb_snoc. simpl.
    by rewrite Hauthor, !String.eqb_refl, orb_true_r.
Qed.
End FollowTimeline.

Lemma follow_then_timeline_witness :
  ∃ data db',
    UsersRoutes.follow_handler Sample.cuid "bob" "alice" Sample.small_feed
      = (Success (Some "User followed successfully") data, db') ∧
    Sample.post "m4" "alice" None false 40
      ∈ listed (MurmurService.getTimeline "bob" 10 0 db').
Proof.
  destruct (follow_then_timeline Sample.cuid "bob" "alice" Sample.small_feed
              (Sample.post "m4" "alice" None false 40) 10)
    as (data & db' & Hrun & _ & Hin);
    [reflexivity|discriminate|reflexivity|reflexivity|reflexivity| |
     reflexivity|reflexivity|vm_compute; lia|].
  { apply (bool_decide_unpack _). vm_compute. exact I. }
  exists data, db'. split; [exact Hrun|exact Hin].
Defined.
